(** * Sports highlight recorder: frame buffer, capture loop and export

    A shallow embedding of [SportsHighlightRecorder] (main.py): the rolling
    frame buffer kept by [recording_loop], the export done by
    [save_highlight], and [stop_recording].

    Python values are modelled as follows.
    - The recorder object and the part of the outside world its methods touch
      (standard output, the files under the highlights directory, the sleeps
      requested, the GPIO library) form one record, [state].
    - A method is a computation in a state-and-exception monad [M]: it
      returns a value or raises, and its effects on the state persist either
      way, as in Python.
    - What the methods take from outside (the result of [camera.read()], the
      clocks, the behaviour of the video writer) is an explicit argument.
    - [deque] is a list, oldest entry first; [float] values (time stamps,
      durations, sizes) are exact rationals, so IEEE rounding is not part of
      the model. *)

From Stdlib Require Import QArith Ascii String NArith Sorted.
From stdpp Require Import gmap strings list.

Local Open Scope nat_scope.

(** ** Values *)

(** [time.time()]: seconds, a Python float. *)
Definition timestamp := Q.

(** The lines the program prints.  Each constructor stands for one [print]
    (the f-string's interpolated values are its arguments), except
    [HighlightSaved], which stands for the six consecutive prints that end
    [save_highlight]. *)
Inductive message :=
  | GpioSetupComplete                 (* "GPIO setup complete - Button ready on GPIO 2" *)
  | WarningFailedToReadFrame          (* "WARNING: Failed to read frame" *)
  | RecordingBuffer (frames : nat)    (* "Recording... Buffer: {n} frames" *)
  | ButtonPressed                     (* "BUTTON PRESSED! Saving highlight..." *)
  | ErrorNoFrames                     (* "ERROR: No frames in buffer to save!" *)
  | Saving (frames : nat) (filename : string)
                                      (* "Saving {n} frames to {filename}..." *)
  | ErrorCouldNotOpenWriter           (* "ERROR: Could not open video writer!" *)
  | HighlightSaved (filename : string) (duration size_mb : Q) (frames : nat)
                                      (* "Highlight saved!" ... "Ready for next highlight..." *)
  | StoppingRecording                 (* "Stopping recording..." *)
  | RecordingStopped.                 (* "Recording stopped and resources cleaned up." *)

(** [self.camera]: [None], or a [cv2.VideoCapture] that is open or has been
    released. *)
Inductive capture := CaptureOpen | CaptureReleased.

(** The [RPi.GPIO] module. *)
Inductive gpio_state := GpioUnset | GpioButton (pin : nat) (bouncetime : nat) | GpioCleanedUp.

(** Calls made on [cv2.VideoWriter], in order. *)
Inductive writer_call :=
  | WriterOpen (filepath : string)
  | WriterWrite (filepath : string)
  | WriterRelease (filepath : string).

(** Python exceptions the modelled code can raise. *)
Inductive exn :=
  | ZeroDivisionError
  | IndexError
  | OSError
  | Cv2Error.

(** How a method call ends. *)
Inductive outcome (A : Type) :=
  | Returns (a : A)
  | Raises (e : exn).
Arguments Returns {A} a.
Arguments Raises {A} e.

Section Recorder.

Context {Frame : Type}.

(** ** The recorder and its surroundings *)

Record state := mkState {
  (* configuration attributes *)
  BUTTON_PIN : nat;
  BUFFER_SECONDS : nat;
  FPS : nat;
  RESOLUTION : nat * nat;
  HIGHLIGHTS_DIR : string;
  (* recorder attributes *)
  frame_buffer : list (Frame * timestamp);
  max_buffer_size : nat;
  recording : bool;
  camera : option capture;
  (* outside the object *)
  stdout : list message;
  files : gmap string (list Frame);
  slept : list Q;
  writer_calls : list writer_call;
  gpio : gpio_state
}.

Definition set_frame_buffer (b : list (Frame * timestamp)) (s : state) : state :=
  mkState (BUTTON_PIN s) (BUFFER_SECONDS s) (FPS s) (RESOLUTION s) (HIGHLIGHTS_DIR s)
          b (max_buffer_size s) (recording s) (camera s)
          (stdout s) (files s) (slept s) (writer_calls s) (gpio s).

Definition set_recording (r : bool) (s : state) : state :=
  mkState (BUTTON_PIN s) (BUFFER_SECONDS s) (FPS s) (RESOLUTION s) (HIGHLIGHTS_DIR s)
          (frame_buffer s) (max_buffer_size s) r (camera s)
          (stdout s) (files s) (slept s) (writer_calls s) (gpio s).

Definition set_camera (c : option capture) (s : state) : state :=
  mkState (BUTTON_PIN s) (BUFFER_SECONDS s) (FPS s) (RESOLUTION s) (HIGHLIGHTS_DIR s)
          (frame_buffer s) (max_buffer_size s) (recording s) c
          (stdout s) (files s) (slept s) (writer_calls s) (gpio s).

Definition set_stdout (o : list message) (s : state) : state :=
  mkState (BUTTON_PIN s) (BUFFER_SECONDS s) (FPS s) (RESOLUTION s) (HIGHLIGHTS_DIR s)
          (frame_buffer s) (max_buffer_size s) (recording s) (camera s)
          o (files s) (slept s) (writer_calls s) (gpio s).

Definition set_files (f : gmap string (list Frame)) (s : state) : state :=
  mkState (BUTTON_PIN s) (BUFFER_SECONDS s) (FPS s) (RESOLUTION s) (HIGHLIGHTS_DIR s)
          (frame_buffer s) (max_buffer_size s) (recording s) (camera s)
          (stdout s) f (slept s) (writer_calls s) (gpio s).

Definition set_slept (l : list Q) (s : state) : state :=
  mkState (BUTTON_PIN s) (BUFFER_SECONDS s) (FPS s) (RESOLUTION s) (HIGHLIGHTS_DIR s)
          (frame_buffer s) (max_buffer_size s) (recording s) (camera s)
          (stdout s) (files s) l (writer_calls s) (gpio s).

Definition set_writer_calls (l : list writer_call) (s : state) : state :=
  mkState (BUTTON_PIN s) (BUFFER_SECONDS s) (FPS s) (RESOLUTION s) (HIGHLIGHTS_DIR s)
          (frame_buffer s) (max_buffer_size s) (recording s) (camera s)
          (stdout s) (files s) (slept s) l (gpio s).

Definition set_gpio (g : gpio_state) (s : state) : state :=
  mkState (BUTTON_PIN s) (BUFFER_SECONDS s) (FPS s) (RESOLUTION s) (HIGHLIGHTS_DIR s)
          (frame_buffer s) (max_buffer_size s) (recording s) (camera s)
          (stdout s) (files s) (slept s) (writer_calls s) g.

(** ** The monad of methods *)

Definition M (A : Type) : Type := state -> outcome A * state.

Definition ret {A} (a : A) : M A := fun s => (Returns a, s).

Definition bind {A B} (m : M A) (k : A -> M B) : M B :=
  fun s => match m s with
           | (Returns a, s') => k a s'
           | (Raises e, s') => (Raises e, s')
           end.

Definition raise {A} (e : exn) : M A := fun s => (Raises e, s).

Definition gets {A} (f : state -> A) : M A := fun s => (Returns (f s), s).

Definition modify (f : state -> state) : M unit := fun s => (Returns tt, f s).

(** The state a computation leaves, and what it returned or raised. *)
Definition exec {A} (m : M A) (s : state) : state := snd (m s).
Definition result {A} (m : M A) (s : state) : outcome A := fst (m s).

End Recorder.

Arguments state Frame : clear implicits.
Arguments M Frame A : clear implicits.

Declare Scope py_scope.
Delimit Scope py_scope with py.
Notation "x <- m ;; k" := (bind m (fun x => k))
  (at level 100, m at next level, right associativity) : py_scope.
Notation "m ;;; k" := (bind m (fun _ => k))
  (at level 100, right associativity) : py_scope.

(** ** Wall-clock time and paths *)

(** [datetime.now()] *)
Record datetime := mkDatetime {
  year : N; month : N; day : N;
  hour : N; minute : N; second : N;
  microsecond : N
}.

(** The field ranges of a [datetime] whose year has four digits (day 31 is
    admitted for every month; nothing below depends on the calendar). *)
Definition datetime_ok (d : datetime) : bool :=
  ((1000 <=? year d) && (year d <=? 9999) &&
   (1 <=? month d) && (month d <=? 12) &&
   (1 <=? day d) && (day d <=? 31) &&
   (hour d <=? 23) && (minute d <=? 59) && (second d <=? 59) &&
   (microsecond d <=? 999999))%N.

(** Two instants within one wall-clock second. *)
Definition same_second (a b : datetime) : Prop :=
  year a = year b /\ month a = month b /\ day a = day b /\
  hour a = hour b /\ minute a = minute b /\ second a = second b.

Definition digit (n : N) : ascii := ascii_of_N (48 + n mod 10).

(** Zero-padded decimal fields, as [%m %d %H %M %S] print them for values
    below 100 and [%Y] for a year of four digits, which is what
    [datetime.now()] has ([datetime_ok]); the C library prints a year below
    1000 without padding, which [pad4] does not follow. *)
Definition pad2 (n : N) : string :=
  String (digit (n / 10)) (String (digit n) EmptyString).

Definition pad4 (n : N) : string :=
  String (digit (n / 1000)) (String (digit (n / 100)) (pad2 n)).

(** [d.strftime("%Y%m%d_%H%M%S")] *)
Definition strftime (d : datetime) : string :=
  pad4 (year d) +:+ pad2 (month d) +:+ pad2 (day d) +:+ "_" +:+
  pad2 (hour d) +:+ pad2 (minute d) +:+ pad2 (second d).

Definition startswith_sep (b : string) : bool :=
  match b with
  | String c _ => Ascii.eqb c "/"
  | EmptyString => false
  end.

Fixpoint endswith_sep (a : string) : bool :=
  match a with
  | EmptyString => false
  | String c EmptyString => Ascii.eqb c "/"
  | String _ rest => endswith_sep rest
  end.

(** [os.path.join(a, b)] (posixpath, two components). *)
Definition os_path_join (a b : string) : string :=
  if startswith_sep b then b
  else if String.eqb a EmptyString || endswith_sep a then a +:+ b
  else a +:+ "/" +:+ b.

(** ** The video writer *)

(** What one [out.write(frame)] does: the frame reaches the file; the call
    returns but the frame does not reach the file ([cv2] reports no error
    from [write]); or the call raises. *)
Inductive write_result := WriteStored | WriteLost | WriteRaises.

Section Operations.

Context {Frame : Type}.

Local Open Scope py_scope.

Abbreviation M := (M Frame).
Abbreviation state := (state Frame).

(** ** Python primitives used by the recorder *)

(** [print(...)] *)
Definition print (m : message) : M unit :=
  modify (fun s => set_stdout (stdout s ++ [m]) s).

(** [time.sleep(d)] *)
Definition time_sleep (d : Q) : M unit :=
  modify (fun s => set_slept (slept s ++ [d]) s).

(** [a / b] on numbers: true division, [ZeroDivisionError] on a zero divisor. *)
Definition py_truediv (a b : nat) : M Q :=
  if b =? 0 then raise ZeroDivisionError
  else ret (inject_Z (Z.of_nat a) / inject_Z (Z.of_nat b))%Q.

(** [a % b] on non-negative integers. *)
Definition py_mod (a b : nat) : M nat :=
  if b =? 0 then raise ZeroDivisionError else ret (a mod b).

(** [self.frame_buffer.append(x)] *)
Definition deque_append (x : Frame * timestamp) : M unit :=
  modify (fun s => set_frame_buffer (frame_buffer s ++ [x]) s).

(** [self.frame_buffer.popleft()] *)
Definition deque_popleft : M (Frame * timestamp) :=
  fun s => match frame_buffer s with
           | [] => (Raises IndexError, s)
           | x :: rest => (Returns x, set_frame_buffer rest s)
           end.

(** [len(self.frame_buffer)] *)
Definition len_frame_buffer : M nat := gets (fun s => length (frame_buffer s)).

(** ** [recording_loop] *)

(** What one iteration of the loop takes from outside: [camera.read()]
    returned [(False, _)]; or it returned [(True, frame)] and the following
    [time.time()] returned [now]; or it raised. *)
Inductive capture_input :=
  | ReadFailed
  | ReadFrame (frame : Frame) (now : timestamp)
  | ReadRaises.

(** The body of [while self.recording:] (main.py lines 105-126), with the
    local [frame_count] passed in and out.  [frame.copy()] is the frame
    itself: frames are values here.  Nothing in the loop handles an
    exception: one raised by [camera.read()] leaves the method. *)
Definition loop_body (i : capture_input) (frame_count : nat) : M nat :=
  match i with
  | ReadFailed =>
      print WarningFailedToReadFrame ;;;
      ret frame_count                                   (* continue *)
  | ReadFrame frame now =>
      deque_append (frame, now) ;;;
      n <- len_frame_buffer ;;
      cap <- gets max_buffer_size ;;
      (if cap <? n then (_ <- deque_popleft ;; ret tt) else ret tt) ;;;
      let frame_count := frame_count + 1 in
      fps <- gets FPS ;;
      r <- py_mod frame_count (fps * 10) ;;
      (if r =? 0
       then (n <- len_frame_buffer ;; print (RecordingBuffer n))
       else ret tt) ;;;
      fps <- gets FPS ;;
      period <- py_truediv 1 fps ;;
      time_sleep period ;;;
      ret frame_count
  | ReadRaises => raise Cv2Error
  end.

(** How a finite run of the loop ends: the [while] test was found false and
    the method returned, or the inputs given ran out with the loop still
    going (its [frame_count] is kept). *)
Inductive loop_end :=
  | LoopExited
  | LoopRunning (frame_count : nat).

(** [recording_loop], run over the inputs of its first [length inputs]
    iterations.  [self.recording] is tested before every iteration. *)
Fixpoint run_loop (inputs : list capture_input) (frame_count : nat) : M loop_end :=
  fun s =>
    if recording s then
      match inputs with
      | [] => (Returns (LoopRunning frame_count), s)
      | i :: rest => bind (loop_body i frame_count) (run_loop rest) s
      end
    else (Returns LoopExited, s).

Definition recording_loop (inputs : list capture_input) : M loop_end :=
  run_loop inputs 0.

(** ** [cv2.VideoWriter] *)

(** The behaviour of the writer that an export gets: whether it opens, what
    its [k]-th [write] (from 0) does, and the size in bytes of the container
    holding given frames. *)
Record video_writer := mkWriter {
  opens : bool;
  write_result_at : nat -> write_result;
  container_bytes : list Frame -> nat
}.

Definition called (c : writer_call) : M unit :=
  modify (fun s => set_writer_calls (writer_calls s ++ [c]) s).

(** [out = cv2.VideoWriter(filepath, fourcc, fps, resolution)] followed by
    [out.isOpened()].  A writer that opens creates (or truncates) the file at
    [filepath]; one that does not open is taken to leave the files as they
    are. *)
Definition cv2_VideoWriter (w : video_writer) (filepath : string) : M bool :=
  called (WriterOpen filepath) ;;;
  if opens w
  then modify (fun s => set_files (<[filepath := []]> (files s)) s) ;;; ret true
  else ret false.

(** [out.write(frame)], the [k]-th such call. *)
Definition writer_write (w : video_writer) (filepath : string) (k : nat)
    (frame : Frame) : M unit :=
  called (WriterWrite filepath) ;;;
  match write_result_at w k with
  | WriteStored =>
      modify (fun s => set_files (alter (fun c => c ++ [frame]) filepath (files s)) s)
  | WriteLost => ret tt
  | WriteRaises => raise Cv2Error
  end.

(** [out.release()] *)
Definition writer_release (filepath : string) : M unit :=
  called (WriterRelease filepath).

(** [os.path.getsize(filepath)] *)
Definition os_path_getsize (w : video_writer) (filepath : string) : M nat :=
  fun s => match files s !! filepath with
           | Some content => (Returns (container_bytes w content), s)
           | None => (Raises OSError, s)
           end.

(** ** [save_highlight] *)

(** [for frame, timestamp in list(self.frame_buffer): out.write(frame);
    frames_written += 1], over the copy [snapshot]. *)
Fixpoint write_frames (w : video_writer) (filepath : string)
    (snapshot : list (Frame * timestamp)) (frames_written : nat) : M nat :=
  match snapshot with
  | [] => ret frames_written
  | (frame, _) :: rest =>
      writer_write w filepath frames_written frame ;;;
      write_frames w filepath rest (frames_written + 1)
  end.

Definition highlight_filename (now : datetime) : string :=
  "highlight_" +:+ strftime now +:+ ".avi".

(** [save_highlight] (main.py lines 136-174); [now] is what
    [datetime.now()] returns and [w] the writer [cv2.VideoWriter] gives. *)
Definition save_highlight (now : datetime) (w : video_writer) : M unit :=
  n <- len_frame_buffer ;;
  if n =? 0 then
    print ErrorNoFrames                                   (* return *)
  else
    let filename := highlight_filename now in
    dir <- gets HIGHLIGHTS_DIR ;;
    let filepath := os_path_join dir filename in
    n <- len_frame_buffer ;;
    print (Saving n filename) ;;;
    opened <- cv2_VideoWriter w filepath ;;
    if negb opened then
      print ErrorCouldNotOpenWriter                       (* return *)
    else
      snapshot <- gets frame_buffer ;;                    (* list(self.frame_buffer) *)
      frames_written <- write_frames w filepath snapshot 0 ;;
      writer_release filepath ;;;
      bytes <- os_path_getsize w filepath ;;
      let file_size := (inject_Z (Z.of_nat bytes) / inject_Z (1024 * 1024))%Q in
      fps <- gets FPS ;;
      duration <- py_truediv frames_written fps ;;
      print (HighlightSaved filename duration file_size frames_written).

(** [threading.Thread(target=m, daemon=True).start()]: the target runs, here
    at once and to its end; an exception it raises ends that thread only. *)
Definition thread_start {A} (m : M A) : M unit :=
  fun s => (Returns tt, exec m s).

(** [button_pressed], the GPIO callback. *)
Definition button_pressed (now : datetime) (w : video_writer) : M unit :=
  print ButtonPressed ;;;
  thread_start (save_highlight now w).

(** ** [stop_recording] *)

Definition stop_recording : M unit :=
  print StoppingRecording ;;;
  modify (set_recording false) ;;;
  cam <- gets camera ;;
  (match cam with
   | Some _ => modify (set_camera (Some CaptureReleased))   (* self.camera.release() *)
   | None => ret tt
   end) ;;;
  modify (set_gpio GpioCleanedUp) ;;;                       (* GPIO.cleanup() *)
  print RecordingStopped.

(** ** [__init__] *)

(** [setup_gpio] *)
Definition setup_gpio : M unit :=
  pin <- gets BUTTON_PIN ;;
  modify (set_gpio (GpioButton pin 500)) ;;;
  print GpioSetupComplete.

(** The attributes as [__init__] assigns them, before [setup_gpio] runs, for
    given values of the two constants [BUFFER_SECONDS] and [FPS].  Nothing
    has been printed, slept or written yet; [files] holds the regular files
    under the highlights directory, here a directory without files, as on a
    first run ([os.makedirs] keeps the files of an existing directory: see
    [init_in]). *)
Definition configured (buffer_seconds fps : nat) : state :=
  {| BUTTON_PIN := 2;
     BUFFER_SECONDS := buffer_seconds;
     FPS := fps;
     RESOLUTION := (640, 480);
     HIGHLIGHTS_DIR := "/home/enigma/sports-recorder/highlights";
     frame_buffer := [];
     max_buffer_size := buffer_seconds * fps;
     recording := false;
     camera := None;
     stdout := [];
     files := ∅;
     slept := [];
     writer_calls := [];
     gpio := GpioUnset |}.

(** The constants of main.py: two minutes at 15 frames per second. *)
Definition fresh : state := configured 120 15.

Definition __init__ : state := exec setup_gpio fresh.

(** The recorder [__init__] builds when the highlights directory already
    holds the files [existing]: [os.makedirs(..., exist_ok=True)] creates
    the directory if it is missing and keeps what an existing one holds.
    [__init__] is the case of a directory without files. *)
Definition init_in (existing : gmap string (list Frame)) : state :=
  set_files existing __init__.

End Operations.

(** ** Derived notions used in the statements *)

Section Derived.

Context {Frame : Type}.

(** The entries that the successful reads among [inputs] put in the buffer,
    in order; a read that raises ends the loop, so the inputs after it are
    never taken. *)
Fixpoint frames_read (inputs : list (@capture_input Frame)) : list (Frame * timestamp) :=
  match inputs with
  | [] => []
  | ReadFailed :: rest => frames_read rest
  | ReadFrame frame now :: rest => (frame, now) :: frames_read rest
  | ReadRaises :: _ => []
  end.

(** Whether one of the reads raises. *)
Fixpoint read_raises (inputs : list (@capture_input Frame)) : bool :=
  match inputs with
  | [] => false
  | ReadRaises :: _ => true
  | _ :: rest => read_raises rest
  end.

(** How a run of the loop over [inputs], started with the flag set and the
    frame count at [fc], ends when nothing but a read raises. *)
Definition loop_outcome (inputs : list (@capture_input Frame)) (fc : nat)
    : outcome loop_end :=
  if read_raises inputs then Raises Cv2Error
  else Returns (LoopRunning (fc + length (frames_read inputs))).

(** The inputs of iterations that all read a frame. *)
Definition reads (entries : list (Frame * timestamp)) : list (@capture_input Frame) :=
  map (fun e => ReadFrame (fst e) (snd e)) entries.

(** What lines 115-119 do to the buffer: append at the tail, then drop the
    head if the length exceeds the limit. *)
Definition buffer_after_push (cap : nat) (buf : list (Frame * timestamp))
    (x : Frame * timestamp) : list (Frame * timestamp) :=
  if cap <? length (buf ++ [x]) then tail (buf ++ [x]) else buf ++ [x].

(** [list(self.frame_buffer)]: the copy an export iterates over. *)
Definition snapshot (s : state Frame) : list (Frame * timestamp) := frame_buffer s.

(** The frames that reach the file when [write_frames] goes over [entries]
    with its counter at [k]: those whose write is stored, up to the first
    write that raises. *)
Fixpoint stored_frames (w : @video_writer Frame) (k : nat)
    (entries : list (Frame * timestamp)) : list Frame :=
  match entries with
  | [] => []
  | (frame, _) :: rest =>
      match write_result_at w k with
      | WriteStored => frame :: stored_frames w (k + 1) rest
      | WriteLost => stored_frames w (k + 1) rest
      | WriteRaises => []
      end
  end.

(** Whether one of those writes raises. *)
Fixpoint write_raises (w : @video_writer Frame) (k : nat)
    (entries : list (Frame * timestamp)) : bool :=
  match entries with
  | [] => false
  | _ :: rest =>
      match write_result_at w k with
      | WriteRaises => true
      | _ => write_raises w (k + 1) rest
      end
  end.

(** How many [write] calls are made: all of them, or those up to and
    including the first one that raises. *)
Fixpoint writes_made (w : @video_writer Frame) (k : nat)
    (entries : list (Frame * timestamp)) : nat :=
  match entries with
  | [] => 0
  | _ :: rest =>
      match write_result_at w k with
      | WriteRaises => 1
      | _ => S (writes_made w (k + 1) rest)
      end
  end.

(** The path [save_highlight] writes to at [now]. *)
Definition highlight_path (s : state Frame) (now : datetime) : string :=
  os_path_join (HIGHLIGHTS_DIR s) (highlight_filename now).

(** What an iteration leaves alone whatever it reads. *)
Definition same_surroundings (s s' : state Frame) : Prop :=
  max_buffer_size s' = max_buffer_size s /\
  FPS s' = FPS s /\
  HIGHLIGHTS_DIR s' = HIGHLIGHTS_DIR s /\
  recording s' = recording s /\
  camera s' = camera s /\
  files s' = files s /\
  writer_calls s' = writer_calls s /\
  gpio s' = gpio s.

(** A recorder whose loop has been started by [start_recording]: the camera
    was found and [self.recording] set. *)
Definition started (s : state Frame) : state Frame :=
  set_recording true (set_camera (Some CaptureOpen) s).

End Derived.

(** The cadence rule of the specification, for comparison with the loop's
    [time.sleep]: sleep what is left of the period after an iteration that
    took [elapsed], and nothing when it took a period or more. *)
Definition cadence_sleep (period elapsed : Q) : Q :=
  if Qle_bool period elapsed then 0%Q else (period - elapsed)%Q.

(** ** Concrete recorders, writers and instants

    Frames are numbers here. *)

Module Fixtures.

(** The recorder of main.py, started. *)
Definition recorder0 : state nat := started __init__.

(** A recorder configured for one second at two frames per second. *)
Definition tiny : state nat := started (exec setup_gpio (configured 1 2)).

(** [recorder0] holding three frames. *)
Definition three_frames : state nat :=
  exec (recording_loop (reads [(10, 0%Q); (11, (1 # 15)%Q); (12, (2 # 15)%Q)])) recorder0.

Definition kilobyte_each (content : list nat) : nat := 1024 * length content.

(** A writer that opens and stores every frame. *)
Definition w_good : @video_writer nat :=
  mkWriter true (fun _ => WriteStored) kilobyte_each.

(** A writer that does not open. *)
Definition w_closed : @video_writer nat :=
  mkWriter false (fun _ => WriteStored) kilobyte_each.

(** A writer whose second write does not reach the file. *)
Definition w_loses_second : @video_writer nat :=
  mkWriter true (fun k => if k =? 1 then WriteLost else WriteStored) kilobyte_each.

(** A writer whose second write raises. *)
Definition w_raises_second : @video_writer nat :=
  mkWriter true (fun k => if k =? 1 then WriteRaises else WriteStored) kilobyte_each.

(** Two button presses 600 ms apart, past the 500 ms bounce time, within one
    second. *)
Definition press1 : datetime := mkDatetime 2026 11 4 12 0 0 100000.
Definition press2 : datetime := mkDatetime 2026 11 4 12 0 0 700000.

(** A press in the following second. *)
Definition press3 : datetime := mkDatetime 2026 11 4 12 0 1 300000.

(** The frame number and capture time of the [k]-th frame read. *)
Definition numbered (k : nat) : nat * timestamp :=
  (k, (inject_Z (Z.of_nat k) / 15)%Q).

End Fixtures.

(** ** Further notions: counting lines, paths *)

(** The warning of a failed read. *)
Definition is_warning (m : message) : bool :=
  match m with WarningFailedToReadFrame => true | _ => false end.

(** A status line of the loop. *)
Definition is_status (m : message) : bool :=
  match m with RecordingBuffer _ => true | _ => false end.

(** Whether a path component contains the separator. *)
Fixpoint has_sep (a : string) : bool :=
  match a with
  | EmptyString => false
  | String c rest => Ascii.eqb c "/" || has_sep rest
  end.

(** The reads that return no frame among the inputs a run takes, that is up
    to a read that raises. *)
Fixpoint failed_reads {Frame} (inputs : list (@capture_input Frame)) : nat :=
  match inputs with
  | [] => 0
  | ReadFailed :: rest => S (failed_reads rest)
  | ReadFrame _ _ :: rest => failed_reads rest
  | ReadRaises :: _ => 0
  end.

(** ** Start-up and status: [initialize_camera], [start_recording],
    [get_stats]

    These methods print lines of their own, make and release
    [cv2.VideoCapture] objects, set camera properties and start the
    recording thread.  A [session] holds the recorder together with what
    they add: the terminal (every line printed, by any method, in order),
    the number of captures made and not yet released, the properties set on
    the current capture, the number of recording threads started, and
    whether the highlights directory exists, with the entries it holds
    besides those the files of [files] give it. *)

Inductive backend := CAP_V4L2 | CAP_ANY.

(** What [cv2.VideoCapture(i, backend)] followed by [read()] does for one
    camera index: a frame is read; no frame is read; the constructor raises;
    the constructor returns and [read] raises. *)
Inductive probe := ProbeFrame | ProbeNoFrame | ProbeOpenRaises | ProbeReadRaises.

(** The lines these methods print. *)
Inductive notice :=
  | InitializingCamera                    (* "Initializing camera..." *)
  | TryingBackend (b : backend)           (* "Trying backend: {name}" *)
  | TryingCameraIndex (i : nat)           (* "  Trying camera index {i}..." *)
  | CameraFound (i : nat) (b : backend)   (* "Camera found at index {i} with {name}" *)
  | CameraNoFrame (i : nat)               (* "  Camera index {i} opened but no frame" *)
  | CameraFailed (i : nat)                (* "  Camera index {i} failed: {e}" *)
  | NoWorkingCamera                       (* "No working camera found!" *)
  | CameraInitialized (width height fps : nat)
                                          (* "Camera initialized: {w}x{h} @ {fps}fps" *)
  | RecordingStarted                      (* "Recording started! Press the button ..." *)
  | StatsHeader                           (* "Current Status:" *)
  | StatsBuffer (frames : nat) (seconds : Q)
                                          (* "   Buffer: {n} frames ({d} seconds)" *)
  | StatsRecording (yes : bool)           (* "   Recording: Yes/No" *)
  | StatsHighlights (count : nat).        (* "   Highlights saved: {n} files" *)

(** Exceptions in a session: those of the recorder's methods above, and
    [AttributeError] for a call on [self.camera] while it is [None]. *)
Inductive error :=
  | Recorder (e : exn)
  | AttributeError.

Inductive ending (A : Type) :=
  | Ends (a : A)
  | Throws (e : error).
Arguments Ends {A} a.
Arguments Throws {A} e.

(** [a] with the prefix [p] removed, if it starts with [p]. *)
Fixpoint strip_prefix (p a : string) : option string :=
  match p with
  | EmptyString => Some a
  | String c p' =>
      match a with
      | String d a' => if Ascii.eqb c d then strip_prefix p' a' else None
      | EmptyString => None
      end
  end.

(** [a] up to its first separator. *)
Fixpoint first_component (a : string) : string :=
  match a with
  | EmptyString => EmptyString
  | String c a' => if Ascii.eqb c "/" then EmptyString else String c (first_component a')
  end.

(** The entry of the directory [dir] that a file at [path] shows in a
    listing of [dir]: the file's own name when it lies directly in [dir], the
    name of the subdirectory of [dir] it lies under otherwise; none when
    [path] is not under [dir]. *)
Definition entry_name (dir path : string) : option string :=
  match strip_prefix (if endswith_sep dir then dir else dir +:+ "/") path with
  | Some rest =>
      let name := first_component rest in
      if String.eqb name EmptyString then None else Some name
  | None => None
  end.

Section Session.

Context {Frame : Type}.

Record session := mkSession {
  self : state Frame;
  terminal : list (message + notice);
  captures_open : nat;
  camera_settings : option (nat * nat * nat);
  loops_started : nat;
  (* [None]: the highlights directory does not exist (or cannot be listed);
     [Some names]: it exists, and [names] are its entries under which no
     file of [files] lies (empty subdirectories and whatever else
     [os.listdir] lists) *)
  other_entries : option (list string)
}.

Definition SM (A : Type) : Type := session -> ending A * session.

Definition sret {A} (a : A) : SM A := fun x => (Ends a, x).

Definition sbind {A B} (m : SM A) (k : A -> SM B) : SM B :=
  fun x => match m x with
           | (Ends a, x') => k a x'
           | (Throws e, x') => (Throws e, x')
           end.

Definition throw {A} (e : error) : SM A := fun x => (Throws e, x).

(** [try: m  except Exception: handler] *)
Definition catch {A} (m : SM A) (handler : error -> SM A) : SM A :=
  fun x => match m x with
           | (Ends a, x') => (Ends a, x')
           | (Throws e, x') => handler e x'
           end.

Definition sexec {A} (m : SM A) (x : session) : session := snd (m x).
Definition sresult {A} (m : SM A) (x : session) : ending A := fst (m x).

(** [print(...)] of one of the lines above. *)
Definition say (n : notice) : SM unit :=
  fun x => (Ends tt,
            mkSession (self x) (terminal x ++ [inr n]) (captures_open x)
                      (camera_settings x) (loops_started x) (other_entries x)).

(** A read of the recorder. *)
Definition ask {A} (f : state Frame -> A) : SM A := fun x => (Ends (f (self x)), x).

(** Whether a method took [self.camera] from open to released. *)
Definition released (before after : option capture) : bool :=
  match before, after with
  | Some CaptureOpen, Some CaptureReleased => true
  | _, _ => false
  end.

(** A method of the recorder modelled above, run in a session: the lines it
    prints go to the terminal in order, a capture it releases is no longer
    open, and its exception, if any, is passed on. *)
Definition lift {A} (m : M Frame A) : SM A :=
  fun x =>
    let r := m (self x) in
    (match fst r with
     | Returns a => Ends a
     | Raises e => Throws (Recorder e)
     end,
     mkSession (snd r)
       (terminal x ++ map inl (drop (length (stdout (self x))) (stdout (snd r))))
       (if released (camera (self x)) (camera (snd r))
        then pred (captures_open x) else captures_open x)
       (camera_settings x) (loops_started x) (other_entries x)).

(** A session around a recorder: what it printed so far is on the terminal,
    [self.camera], if open, is the one capture open, and the highlights
    directory exists and holds nothing but what the files of [files] make
    it hold. *)
Definition session_of (s : state Frame) : session :=
  mkSession s (map inl (stdout s))
            (match camera s with Some CaptureOpen => 1 | _ => 0 end) None 0 (Some []).

(** The same session with the highlights directory missing ([None]) or
    holding the further entries [others]. *)
Definition in_directory (others : option (list string)) (x : session) : session :=
  mkSession (self x) (terminal x) (captures_open x) (camera_settings x)
            (loops_started x) others.

End Session.

Arguments session Frame : clear implicits.
Arguments SM Frame A : clear implicits.

Declare Scope session_scope.
Delimit Scope session_scope with session.
Notation "x <- m ;; k" := (sbind m (fun x => k))
  (at level 100, m at next level, right associativity) : session_scope.
Notation "m ;;; k" := (sbind m (fun _ => k))
  (at level 100, right associativity) : session_scope.

Section SessionOperations.

Context {Frame : Type}.

Local Open Scope session_scope.

(** [self.camera = cv2.VideoCapture(i, backend)], the constructor having
    returned: a new capture, with no property set yet. *)
Definition new_capture : SM Frame unit :=
  fun x => (Ends tt,
            mkSession (set_camera (Some CaptureOpen) (self x)) (terminal x)
                      (S (captures_open x)) None (loops_started x) (other_entries x)).

(** [self.camera.release()] *)
Definition camera_release : SM Frame unit :=
  fun x => match camera (self x) with
           | Some CaptureOpen =>
               (Ends tt,
                mkSession (set_camera (Some CaptureReleased) (self x)) (terminal x)
                          (pred (captures_open x)) (camera_settings x) (loops_started x)
                          (other_entries x))
           | Some CaptureReleased => (Ends tt, x)
           | None => (Throws AttributeError, x)
           end.

(** [setup_camera_properties]: the three [self.camera.set] calls (width,
    height, frame rate), the line printed, [return True]. *)
Definition setup_camera_properties : SM Frame bool :=
  res <- ask RESOLUTION ;;
  fps <- ask FPS ;;
  cam <- ask camera ;;
  match cam with
  | None => throw AttributeError
  | Some _ =>
      (fun x => (Ends tt,
                 mkSession (self x) (terminal x) (captures_open x)
                           (Some (fst res, snd res, fps)) (loops_started x)
                           (other_entries x))) ;;;
      say (CameraInitialized (fst res) (snd res) fps) ;;;
      sret true
  end.

(** The body of [for i in range(3)] in [initialize_camera], for the camera
    [cam]: [Some r] when it executes [return r], [None] when the loop goes
    on.  The [except] clause handles whatever the [try] block raises. *)
Definition try_camera (cam : backend -> nat -> probe) (b : backend) (i : nat)
    : SM Frame (option bool) :=
  say (TryingCameraIndex i) ;;;
  catch
    (match cam b i with
     | ProbeOpenRaises => throw (Recorder Cv2Error)
     | ProbeReadRaises => new_capture ;;; throw (Recorder Cv2Error)
     | ProbeFrame =>
         new_capture ;;;
         say (CameraFound i b) ;;;
         r <- setup_camera_properties ;;
         sret (Some r)
     | ProbeNoFrame =>
         new_capture ;;;
         say (CameraNoFrame i) ;;;
         camera_release ;;;
         sret None
     end)
    (fun _ =>
       say (CameraFailed i) ;;;
       cam_now <- ask camera ;;
       (match cam_now with
        | Some _ => camera_release
        | None => sret tt
        end) ;;;
       sret None).

Fixpoint try_indices (cam : backend -> nat -> probe) (b : backend) (indices : list nat)
    : SM Frame (option bool) :=
  match indices with
  | [] => sret None
  | i :: rest =>
      r <- try_camera cam b i ;;
      match r with
      | Some v => sret (Some v)
      | None => try_indices cam b rest
      end
  end.

Fixpoint try_backends (cam : backend -> nat -> probe) (backends : list backend)
    : SM Frame (option bool) :=
  match backends with
  | [] => sret None
  | b :: rest =>
      say (TryingBackend b) ;;;
      r <- try_indices cam b (seq 0 3) ;;
      match r with
      | Some v => sret (Some v)
      | None => try_backends cam rest
      end
  end.

(** [initialize_camera] (main.py lines 45-74). *)
Definition initialize_camera (cam : backend -> nat -> probe) : SM Frame bool :=
  say InitializingCamera ;;;
  r <- try_backends cam [CAP_V4L2; CAP_ANY] ;;
  match r with
  | Some v => sret v
  | None => say NoWorkingCamera ;;; sret false
  end.

(** [start_recording] (main.py lines 86-98).  The recording thread is
    started, which is counted; what it then does is a run of
    [recording_loop]. *)
Definition start_recording (cam : backend -> nat -> probe) : SM Frame bool :=
  found <- initialize_camera cam ;;
  if negb found then sret false
  else
    lift (modify (set_recording true)) ;;;
    (fun x => (Ends tt,
               mkSession (self x) (terminal x) (captures_open x) (camera_settings x)
                         (S (loops_started x)) (other_entries x))) ;;;
    say RecordingStarted ;;;
    sret true.

(** The entries of the directory [dir] when the files are [fs] and [others]
    are its further entries: the regular files directly in it, the
    subdirectories under which a file lies, and [others], each name once. *)
Definition directory_entries (dir : string) (fs : gmap string (list Frame))
    (others : list string) : gset string :=
  set_omap (entry_name dir) (dom fs) ∪ list_to_set others.

(** What a listing of [dir] gives in the session [x]: nothing for the empty
    path and for a directory that does not exist. *)
Definition listing (dir : string) (x : session Frame) : option (gset string) :=
  if String.eqb dir EmptyString then None
  else option_map (directory_entries dir (files (self x))) (other_entries x).

(** [os.listdir(dir)] for the highlights directory: the names of its
    entries, in no particular order; [FileNotFoundError], an [OSError], when
    the path is empty or the directory does not exist. *)
Definition os_listdir (dir : string) : SM Frame (list string) :=
  fun x => match listing dir x with
           | Some names => (Ends (elements names), x)
           | None => (Throws (Recorder OSError), x)
           end.

(** [get_stats] (main.py lines 187-193). *)
Definition get_stats : SM Frame unit :=
  n <- lift len_frame_buffer ;;
  fps <- ask FPS ;;
  buffer_duration <- lift (py_truediv n fps) ;;
  say StatsHeader ;;;
  n <- lift len_frame_buffer ;;
  say (StatsBuffer n buffer_duration) ;;;
  rec <- ask recording ;;
  say (StatsRecording rec) ;;;
  dir <- ask HIGHLIGHTS_DIR ;;
  entries <- os_listdir dir ;;
  say (StatsHighlights (length entries)).

(** The six probes of [initialize_camera], in the order they are made. *)
Definition probe_order : list (backend * nat) :=
  [(CAP_V4L2, 0); (CAP_V4L2, 1); (CAP_V4L2, 2); (CAP_ANY, 0); (CAP_ANY, 1); (CAP_ANY, 2)].

(** The first probe, in that order, that reads a frame. *)
Definition first_camera (cam : backend -> nat -> probe) : option (backend * nat) :=
  List.find (fun p => match cam (fst p) (snd p) with ProbeFrame => true | _ => false end)
            probe_order.

(** Around a part of [initialize_camera]: the recorder is as before but for
    [self.camera], no thread was started, the directory is as it was, and
    lines were added to the terminal. *)
Definition probing (x x' : session Frame) : Prop :=
  (exists c, self x' = set_camera c (self x)) /\
  loops_started x' = loops_started x /\
  other_entries x' = other_entries x /\
  exists lines, terminal x' = terminal x ++ map inr lines.

(** A part of [initialize_camera] that found no camera: no capture is left
    open. *)
Definition none_found (x x' : session Frame) : Prop :=
  probing x x' /\
  camera (self x') <> Some CaptureOpen /\
  captures_open x' = captures_open x.

(** A part of [initialize_camera] that found the camera at index [i] with
    backend [b]: the capture is open, the only one added, its properties are
    set, and the last two lines say so. *)
Definition found_at (b : backend) (i : nat) (x x' : session Frame) : Prop :=
  probing x x' /\
  camera (self x') = Some CaptureOpen /\
  captures_open x' = S (captures_open x) /\
  camera_settings x' =
    Some (fst (RESOLUTION (self x)), snd (RESOLUTION (self x)), FPS (self x)) /\
  exists lines,
    terminal x' =
    terminal x ++ map inr (lines ++ [CameraFound i b;
                                     CameraInitialized (fst (RESOLUTION (self x)))
                                                       (snd (RESOLUTION (self x)))
                                                       (FPS (self x))]).

End SessionOperations.

Module SessionFixtures.

(** A machine whose only working camera is index 1, seen by the second
    backend; index 0 opens without a frame, and with the first backend the
    other two raise. *)
Definition second_backend_index1 (b : backend) (i : nat) : probe :=
  match b, i with
  | CAP_V4L2, 0 => ProbeNoFrame
  | CAP_V4L2, 1 => ProbeReadRaises
  | CAP_V4L2, _ => ProbeOpenRaises
  | CAP_ANY, 1 => ProbeFrame
  | CAP_ANY, _ => ProbeNoFrame
  end.

(** A machine without camera. *)
Definition no_camera (b : backend) (i : nat) : probe := ProbeNoFrame.

(** The session around the recorder [__init__] builds. *)
Definition at_start : session nat := session_of __init__.

(** A recorder with three frames in a buffer of two seconds at two frames
    per second. *)
Definition three_of_four : state nat :=
  exec (recording_loop (reads [(10, 0%Q); (11, (1 # 2)%Q); (12, 1%Q)]))
       (started (exec setup_gpio (configured 2 2))).

(** A highlight that an earlier run left in the directory. *)
Definition yesterday : datetime := mkDatetime 2026 11 3 18 30 0 0.
Definition earlier_run : gmap string (list nat) :=
  {[ highlight_path (@__init__ nat) yesterday := [1; 2] ]}.

End SessionFixtures.

(** * Properties *)

(** Projections of updated states. *)
Ltac state_simpl :=
  cbn [BUTTON_PIN BUFFER_SECONDS FPS RESOLUTION HIGHLIGHTS_DIR frame_buffer
       max_buffer_size recording camera stdout files slept writer_calls gpio
       set_frame_buffer set_recording set_camera set_stdout set_files set_slept
       set_writer_calls set_gpio].

(** Projections of updated sessions. *)
Ltac session_simpl :=
  cbn [self terminal captures_open camera_settings loops_started other_entries fst snd
       BUTTON_PIN BUFFER_SECONDS FPS RESOLUTION HIGHLIGHTS_DIR frame_buffer
       max_buffer_size recording camera stdout files slept writer_calls gpio
       set_frame_buffer set_recording set_camera set_stdout set_files set_slept
       set_writer_calls set_gpio].

(** Two states with the same attributes and surroundings are equal. *)
Lemma state_eq {Frame} (a b : state Frame) :
  BUTTON_PIN a = BUTTON_PIN b -> BUFFER_SECONDS a = BUFFER_SECONDS b ->
  FPS a = FPS b -> RESOLUTION a = RESOLUTION b ->
  HIGHLIGHTS_DIR a = HIGHLIGHTS_DIR b -> frame_buffer a = frame_buffer b ->
  max_buffer_size a = max_buffer_size b -> recording a = recording b ->
  camera a = camera b -> stdout a = stdout b -> files a = files b ->
  slept a = slept b -> writer_calls a = writer_calls b -> gpio a = gpio b ->
  a = b.
Proof. destruct a, b; simpl; intros; subst; reflexivity. Qed.

(** ** The capture loop and the buffer *)

Section BufferProofs.
Context {Frame : Type}.
Implicit Types (s : state Frame) (buf : list (Frame * timestamp)).

Lemma buffer_after_push_drop cap buf x :
  length buf <= cap ->
  buffer_after_push cap buf x = drop (length (buf ++ [x]) - cap) (buf ++ [x]).
Proof.
  intros Hle. unfold buffer_after_push.
  rewrite length_app; simpl.
  destruct (Nat.ltb_spec cap (length buf + 1)) as [Hlt|Hge].
  - replace (length buf + 1 - cap) with 1 by lia.
    destruct buf; reflexivity.
  - replace (length buf + 1 - cap) with 0 by lia. reflexivity.
Qed.

Lemma buffer_after_push_length cap buf x :
  length buf <= cap -> length (buffer_after_push cap buf x) <= cap.
Proof.
  intros Hle. rewrite buffer_after_push_drop by done.
  rewrite length_drop, length_app; simpl. lia.
Qed.

(** The effect of one iteration that reads a frame. *)
Lemma loop_body_frame s frame now fc :
  0 < FPS s ->
  exists s',
    loop_body (ReadFrame frame now) fc s = (Returns (fc + 1), s') /\
    frame_buffer s' = buffer_after_push (max_buffer_size s) (frame_buffer s) (frame, now) /\
    slept s' = slept s ++ [(inject_Z 1 / inject_Z (Z.of_nat (FPS s)))%Q] /\
    same_surroundings s s'.
Proof.
  intros Hfps.
  assert (Hmod : (FPS s * 10 =? 0) = false) by (apply Nat.eqb_neq; lia).
  assert (Hdiv : (FPS s =? 0) = false) by (apply Nat.eqb_neq; lia).
  unfold loop_body, buffer_after_push, bind, deque_append, len_frame_buffer, gets, modify,
    deque_popleft, py_mod, py_truediv, time_sleep, print, ret, raise, same_surroundings; simpl.
  destruct (max_buffer_size s <? length (frame_buffer s ++ [(frame, now)])) eqn:Ecap; simpl.
  - destruct (frame_buffer s) as [|h t] eqn:Ebuf; simpl; rewrite Hmod; simpl;
      destruct ((fc + 1) mod _ =? 0); simpl; rewrite Hdiv; simpl;
      eexists; (split; [reflexivity|]); simpl; auto 12.
  - rewrite Hmod; simpl; destruct ((fc + 1) mod _ =? 0); simpl; rewrite Hdiv; simpl;
      eexists; (split; [reflexivity|]); simpl; auto 12.
Qed.

(** The effect of one iteration whose read fails. *)
Lemma loop_body_failed s fc :
  loop_body ReadFailed fc s =
  (Returns fc, set_stdout (stdout s ++ [WarningFailedToReadFrame]) s).
Proof. reflexivity. Qed.

(** A started loop, fed any inputs, keeps running and holds the newest
    entries. *)
Lemma run_loop_buffer inputs : forall s fc,
  recording s = true -> 0 < FPS s ->
  length (frame_buffer s) <= max_buffer_size s ->
  exists s',
    run_loop inputs fc s = (loop_outcome inputs fc, s') /\
    frame_buffer s' =
      drop (length (frame_buffer s ++ frames_read inputs) - max_buffer_size s)
           (frame_buffer s ++ frames_read inputs) /\
    same_surroundings s s'.
Proof.
  unfold loop_outcome.
  induction inputs as [|i rest IH]; intros s fc Hrec Hfps Hlen; simpl; rewrite Hrec.
  - exists s. rewrite Nat.add_0_r, app_nil_r.
    replace (_ - _) with 0 by lia. by repeat split.
  - destruct i as [|frame now|].
    3: { exists s. unfold bind, raise. cbn. rewrite app_nil_r.
         replace (_ - _) with 0 by lia. by repeat split. }
    + unfold bind. rewrite loop_body_failed.
      destruct (IH (set_stdout (stdout s ++ [WarningFailedToReadFrame]) s) fc)
        as (s' & Hrun & Hbuf & Hsame); auto.
      exists s'. simpl in Hbuf. unfold same_surroundings in *. simpl in Hsame. by split.
    + destruct (loop_body_frame s frame now fc Hfps) as (s1 & Hstep & Hbuf1 & _ & Hsame1).
      unfold bind. rewrite Hstep.
      destruct Hsame1 as (Hcap & HF & Hdir & Hr & Hcam & Hfiles & Hcalls & Hgpio).
      destruct (IH s1 (fc + 1)) as (s' & Hrun & Hbuf & Hsame).
      { congruence. } { lia. }
      { rewrite Hbuf1, Hcap. by apply buffer_after_push_length. }
      exists s'. split; [|split].
      * rewrite Hrun. simpl. destruct (read_raises rest); [done|]. do 3 f_equal. lia.
      * rewrite Hbuf, Hbuf1, Hcap.
        rewrite buffer_after_push_drop by done.
        set (b := frame_buffer s) in *. set (c := max_buffer_size s).
        set (ps := frames_read rest).
        assert (Hk : length (b ++ [(frame, now)]) - c <= length (b ++ [(frame, now)])) by lia.
        rewrite <- (drop_app_le _ ps _ Hk).
        rewrite drop_drop. rewrite <- (assoc_L (++)). simpl.
        f_equal. subst b c ps. rewrite length_app, length_drop, !length_app. simpl. lia.
      * unfold same_surroundings in *. destruct Hsame as (?&?&?&?&?&?&?&?).
        repeat split; congruence.
Qed.
End BufferProofs.

(** ** The export *)

Section ExportProofs.
Context {Frame : Type}.
Implicit Types (s : state Frame) (w : @video_writer Frame)
  (entries : list (Frame * timestamp)).

Lemma alter_app_nil (m : gmap string (list Frame)) path :
  alter (fun c => c ++ []) path m = m.
Proof. apply alter_id. intros x _. apply app_nil_r. Qed.

Lemma write_frames_spec w path entries : forall k s,
  write_frames w path entries k s =
  (if write_raises w k entries then Raises Cv2Error else Returns (k + length entries),
   set_writer_calls
     (writer_calls s ++ replicate (writes_made w k entries) (WriterWrite path))
     (set_files (alter (fun c => c ++ stored_frames w k entries) path (files s)) s)).
Proof.
  induction entries as [|[frame t] rest IH]; intros k s; simpl.
  - unfold ret, set_writer_calls, set_files; simpl.
    rewrite Nat.add_0_r, app_nil_r, alter_app_nil. by destruct s.
  - unfold bind, writer_write, called, modify, raise, ret. simpl.
    destruct (write_result_at w k) eqn:Ew; simpl.
    + rewrite IH. simpl. f_equal.
      * destruct (write_raises _ _ _); [done|]. f_equal. lia.
      * unfold set_writer_calls, set_files; simpl. f_equal.
        -- rewrite alter_alter_eq. apply alter_ext. intros x _. simpl.
           by rewrite <- (assoc_L (++)).
        -- by rewrite <- (assoc_L (++)).
    + rewrite IH. simpl. f_equal.
      * destruct (write_raises _ _ _); [done|]. f_equal. lia.
      * unfold set_writer_calls, set_files; simpl. f_equal.
        by rewrite <- (assoc_L (++)).
    + unfold set_writer_calls, set_files; simpl. by rewrite alter_app_nil.
Qed.

(** An export from an empty buffer. *)
Lemma save_highlight_empty s now w :
  frame_buffer s = [] ->
  save_highlight now w s = (Returns tt, set_stdout (stdout s ++ [ErrorNoFrames]) s).
Proof.
  intros He. unfold save_highlight, bind, len_frame_buffer, gets. simpl.
  rewrite He. reflexivity.
Qed.

(** An export whose writer does not open. *)
Lemma save_highlight_not_opened s now w :
  frame_buffer s <> [] -> opens w = false ->
  save_highlight now w s =
  (Returns tt,
   set_stdout (stdout s ++ [Saving (length (frame_buffer s)) (highlight_filename now);
                            ErrorCouldNotOpenWriter])
     (set_writer_calls (writer_calls s ++ [WriterOpen (highlight_path s now)]) s)).
Proof.
  intros Hne Hop.
  unfold save_highlight, bind, len_frame_buffer, gets, cv2_VideoWriter, called, print,
    modify, ret. simpl.
  destruct (frame_buffer s) as [|x b] eqn:Eb; [done|]. simpl.
  rewrite Hop. simpl. unfold set_stdout, set_writer_calls, highlight_path; simpl.
  rewrite Eb. simpl. by rewrite <- (assoc_L (++)).
Qed.

(** An export whose writer opens: the state it leaves, and how it ends. *)
Lemma save_highlight_opened s now w :
  frame_buffer s <> [] -> opens w = true ->
  let path := highlight_path s now in
  let n := length (frame_buffer s) in
  let content := stored_frames w 0 (frame_buffer s) in
  let calls := writer_calls s ++ WriterOpen path ::
                 replicate (writes_made w 0 (frame_buffer s)) (WriterWrite path) in
  let written := set_files (<[path := content]> (files s)) s in
  save_highlight now w s =
    if write_raises w 0 (frame_buffer s) then
      (Raises Cv2Error,
       set_stdout (stdout s ++ [Saving n (highlight_filename now)])
         (set_writer_calls calls written))
    else if FPS s =? 0 then
      (Raises ZeroDivisionError,
       set_stdout (stdout s ++ [Saving n (highlight_filename now)])
         (set_writer_calls (calls ++ [WriterRelease path]) written))
    else
      (Returns tt,
       set_stdout
         (stdout s ++
          [Saving n (highlight_filename now);
           HighlightSaved (highlight_filename now)
             (inject_Z (Z.of_nat n) / inject_Z (Z.of_nat (FPS s)))%Q
             (inject_Z (Z.of_nat (container_bytes w content)) / inject_Z (1024 * 1024))%Q
             n])
         (set_writer_calls (calls ++ [WriterRelease path]) written)).
Proof.
  intros Hne Hop path n content calls written.
  assert (Hn : (length (frame_buffer s) =? 0) = false).
  { apply Nat.eqb_neq. destruct (frame_buffer s); simpl; [done|lia]. }
  cbv beta iota zeta delta
    [save_highlight bind len_frame_buffer gets cv2_VideoWriter called print modify ret].
  rewrite Hn, Hop. cbn [negb]. rewrite write_frames_spec. state_simpl.
  rewrite alter_insert_eq. cbn [app].
  change (os_path_join (HIGHLIGHTS_DIR s) (highlight_filename now)) with path.
  fold content.
  destruct (write_raises w 0 (frame_buffer s)).
  { f_equal. subst calls written.
    apply state_eq; state_simpl; try reflexivity.
    by rewrite <- (assoc_L (++)). }
  cbv beta iota zeta delta
    [writer_release called modify os_path_getsize py_truediv raise ret print].
  state_simpl. rewrite lookup_insert_eq.
  subst calls written n. state_simpl.
  destruct (FPS s =? 0); state_simpl; f_equal;
    apply state_eq; state_simpl; try reflexivity;
    by rewrite <- !(assoc_L (++)).
Qed.
End ExportProofs.

(** ** File names *)

Section NameProofs.

Lemma digit_inj (a b : N) : digit a = digit b -> (a mod 10 = b mod 10)%N.
Proof.
  unfold digit. intros H.
  apply (f_equal N_of_ascii) in H.
  rewrite !N_ascii_embedding in H.
  - lia.
  - pose proof (N.mod_upper_bound b 10). lia.
  - pose proof (N.mod_upper_bound a 10). lia.
Qed.

Lemma decimal_step (a b : N) :
  (a / 10 = b / 10)%N -> (a mod 10 = b mod 10)%N -> a = b.
Proof.
  intros Hq Hr. rewrite (N.div_mod' a 10), (N.div_mod' b 10). congruence.
Qed.

Lemma pad2_inj (a b : N) : (a < 100)%N -> (b < 100)%N -> pad2 a = pad2 b -> a = b.
Proof.
  intros Ha Hb H. unfold pad2 in H. injection H as H1 H0.
  apply digit_inj in H1, H0.
  apply decimal_step; [|done].
  rewrite !N.mod_small in H1; [done| |];
    apply N.Div0.div_lt_upper_bound; lia.
Qed.

Lemma pad4_inj (a b : N) : (a < 10000)%N -> (b < 10000)%N -> pad4 a = pad4 b -> a = b.
Proof.
  intros Ha Hb H. unfold pad4, pad2 in H. injection H as H3 H2 H1 H0.
  apply digit_inj in H3, H2, H1, H0.
  assert (Hdd : forall n : N, (n / 100 = n / 10 / 10 /\ n / 1000 = n / 10 / 10 / 10)%N).
  { intros n. by rewrite !N.Div0.div_div. }
  rewrite (proj2 (Hdd a)), (proj2 (Hdd b)) in H3.
  rewrite (proj1 (Hdd a)), (proj1 (Hdd b)) in H2.
  do 3 (apply decimal_step; [|done]).
  rewrite !N.mod_small in H3; [done| |];
    repeat apply N.Div0.div_lt_upper_bound; lia.
Qed.

Lemma strftime_same_second (a b : datetime) :
  same_second a b -> strftime a = strftime b.
Proof.
  unfold same_second, strftime. intros (-> & -> & -> & -> & -> & ->). reflexivity.
Qed.

Lemma datetime_ok_bounds (d : datetime) :
  datetime_ok d = true ->
  (year d < 10000 /\ month d < 100 /\ day d < 100 /\
   hour d < 100 /\ minute d < 100 /\ second d < 100)%N.
Proof.
  unfold datetime_ok. rewrite !andb_true_iff, !N.leb_le. lia.
Qed.

Lemma strftime_inj (a b : datetime) :
  datetime_ok a = true -> datetime_ok b = true ->
  strftime a = strftime b -> same_second a b.
Proof.
  intros Ha Hb H.
  apply datetime_ok_bounds in Ha, Hb.
  unfold strftime, pad4, pad2 in H. simpl in H.
  injection H as Y3 Y2 Y1 Y0 M1 M0 D1 D0 h1 h0 m1 m0 s1 s0.
  unfold same_second.
  repeat split.
  - apply pad4_inj; [lia..|]. unfold pad4, pad2. congruence.
  - apply pad2_inj; [lia..|]. unfold pad2. congruence.
  - apply pad2_inj; [lia..|]. unfold pad2. congruence.
  - apply pad2_inj; [lia..|]. unfold pad2. congruence.
  - apply pad2_inj; [lia..|]. unfold pad2. congruence.
  - apply pad2_inj; [lia..|]. unfold pad2. congruence.
Qed.

Lemma append_inj_l (p x y : string) : p +:+ x = p +:+ y -> x = y.
Proof. induction p as [|c p IH]; simpl; [done|]. intros H. injection H as H. auto. Qed.

Lemma append_inj_r (x y q : string) :
  String.length x = String.length y -> x +:+ q = y +:+ q -> x = y.
Proof.
  revert y. induction x as [|c x IH]; intros [|d y]; simpl; try done.
  intros Hl H. injection Hl as Hl. injection H as -> H. f_equal. auto.
Qed.

Lemma strftime_length (d : datetime) : String.length (strftime d) = 15.
Proof. reflexivity. Qed.

Lemma highlight_filename_inj (a b : datetime) :
  datetime_ok a = true -> datetime_ok b = true ->
  highlight_filename a = highlight_filename b -> same_second a b.
Proof.
  intros Ha Hb H. apply strftime_inj; [done..|].
  unfold highlight_filename in H.
  apply append_inj_l in H.
  apply append_inj_r in H; [done|]. by rewrite !strftime_length.
Qed.

Lemma os_path_join_highlight (dir : string) (d : datetime) :
  os_path_join dir (highlight_filename d) =
  (if String.eqb dir EmptyString || endswith_sep dir then dir else dir +:+ "/")
    +:+ highlight_filename d.
Proof.
  unfold os_path_join.
  replace (startswith_sep (highlight_filename d)) with false by reflexivity.
  destruct (String.eqb dir EmptyString || endswith_sep dir); [done|].
  generalize (highlight_filename d). intros name.
  induction dir as [|c dir IH]; [done|].
  change (String c (dir +:+ "/" +:+ name) = String c ((dir +:+ "/") +:+ name)).
  by rewrite IH.
Qed.

Lemma highlight_path_inj {Frame} (s : state Frame) (a b : datetime) :
  datetime_ok a = true -> datetime_ok b = true ->
  highlight_path s a = highlight_path s b -> same_second a b.
Proof.
  intros Ha Hb H. apply highlight_filename_inj; [done..|].
  unfold highlight_path in H. rewrite !os_path_join_highlight in H.
  by apply append_inj_l in H.
Qed.
End NameProofs.

(** ** Facts shared by the statements below *)

Section Shared.
Context {Frame : Type}.
Implicit Types (s : state Frame) (w : @video_writer Frame)
  (entries : list (Frame * timestamp)).

Lemma frames_read_reads entries : frames_read (reads entries) = entries.
Proof.
  induction entries as [|[f t] rest IH]; simpl; [done|]. by rewrite IH.
Qed.

Lemma read_raises_reads entries : read_raises (reads entries) = false.
Proof. induction entries as [|[f t] rest IH]; simpl; done. Qed.

Lemma recording_loop_from_empty s (inputs : list (@capture_input Frame)) :
  recording s = true -> 0 < FPS s -> frame_buffer s = [] ->
  exists s',
    recording_loop inputs s = (loop_outcome inputs 0, s') /\
    frame_buffer s' =
      drop (length (frames_read inputs) - max_buffer_size s) (frames_read inputs) /\
    same_surroundings s s'.
Proof.
  intros Hrec Hfps Hempty.
  destruct (run_loop_buffer inputs s 0 Hrec Hfps) as (s' & Hrun & Hbuf & Hsame).
  { rewrite Hempty. simpl. lia. }
  exists s'. rewrite Hempty in Hbuf.
  split; [exact Hrun|split; [exact Hbuf|exact Hsame]].
Qed.

Lemma run_loop_failures (n : nat) : forall s fc,
  recording s = true ->
  run_loop (replicate n ReadFailed) fc s =
  (Returns (LoopRunning fc),
   set_stdout (stdout s ++ replicate n WarningFailedToReadFrame) s).
Proof.
  induction n as [|n IH]; intros s fc Hrec; cbn [replicate run_loop]; rewrite Hrec.
  - rewrite app_nil_r. by destruct s.
  - unfold bind. rewrite loop_body_failed, IH by done.
    f_equal. apply state_eq; state_simpl; try reflexivity.
    by rewrite <- (assoc_L (++)).
Qed.

Lemma run_loop_failures_then (n : nat) (rest : list (@capture_input Frame)) : forall s fc,
  recording s = true ->
  run_loop (replicate n ReadFailed ++ rest) fc s =
  run_loop rest fc (set_stdout (stdout s ++ replicate n WarningFailedToReadFrame) s).
Proof.
  induction n as [|n IH]; intros s fc Hrec.
  - cbn [replicate app]. rewrite app_nil_r. by destruct s.
  - cbn [replicate app run_loop]. rewrite Hrec.
    unfold bind. rewrite loop_body_failed, IH by done.
    f_equal. apply state_eq; state_simpl; try reflexivity.
    by rewrite <- (assoc_L (++)).
Qed.

Lemma stored_frames_all w entries :
  (forall k, write_result_at w k = WriteStored) ->
  forall k, stored_frames w k entries = map fst entries /\
            write_raises w k entries = false.
Proof.
  intros Hall. induction entries as [|[f t] rest IH]; intros k; simpl; [done|].
  rewrite Hall. destruct (IH (k + 1)) as [-> ->]. done.
Qed.

Lemma save_highlight_file s now w :
  frame_buffer s <> [] -> opens w = true ->
  files (exec (save_highlight now w) s) !! highlight_path s now =
  Some (stored_frames w 0 (frame_buffer s)).
Proof.
  intros Hne Hop. unfold exec.
  rewrite (save_highlight_opened s now w Hne Hop).
  destruct (write_raises _ _ _); [|destruct (FPS s =? 0)]; simpl;
    apply lookup_insert_eq.
Qed.

Lemma save_highlight_good s now w :
  frame_buffer s <> [] -> opens w = true ->
  write_raises w 0 (frame_buffer s) = false -> 0 < FPS s ->
  let path := highlight_path s now in
  let n := length (frame_buffer s) in
  let content := stored_frames w 0 (frame_buffer s) in
  save_highlight now w s =
  (Returns tt,
   set_stdout
     (stdout s ++
      [Saving n (highlight_filename now);
       HighlightSaved (highlight_filename now)
         (inject_Z (Z.of_nat n) / inject_Z (Z.of_nat (FPS s)))%Q
         (inject_Z (Z.of_nat (container_bytes w content)) / inject_Z (1024 * 1024))%Q
         n])
     (set_writer_calls
        ((writer_calls s ++ WriterOpen path ::
            replicate (writes_made w 0 (frame_buffer s)) (WriterWrite path)) ++
         [WriterRelease path])
        (set_files (<[path := content]> (files s)) s))).
Proof.
  intros Hne Hop Hnr Hfps path n content.
  rewrite (save_highlight_opened s now w Hne Hop), Hnr.
  replace (FPS s =? 0) with false; [done|].
  symmetry. apply Nat.eqb_neq. lia.
Qed.

End Shared.

(** ** The frame buffer *)

Section BufferClaims.
Context {Frame : Type}.
Implicit Types (s : state Frame) (w : @video_writer Frame).

(** C1.  Run the capture loop of a started recorder whose buffer is empty
    over any inputs; let [pushed] be the entries its successful reads push.
    Then the buffer ends with [min (length pushed) C] entries, where [C] is
    [max_buffer_size], and they are the last [C] of [pushed] (all of them
    when there are fewer).  One push appends at the tail and removes the
    head when the length then exceeds [C].  The recorder is built with
    [C = BUFFER_SECONDS * FPS]. *)
Theorem C1_buffer_keeps_most_recent s (inputs : list (@capture_input Frame)) :
  recording s = true -> 0 < FPS s -> frame_buffer s = [] ->
  let pushed := frames_read inputs in
  let s' := exec (recording_loop inputs) s in
  length (frame_buffer s') = min (length pushed) (max_buffer_size s) /\
  frame_buffer s' = drop (length pushed - max_buffer_size s) pushed /\
  (forall (t : state Frame) frame now fc, 0 < FPS t ->
     frame_buffer (exec (loop_body (ReadFrame frame now) fc) t) =
       if max_buffer_size t <? length (frame_buffer t ++ [(frame, now)])
       then tail (frame_buffer t ++ [(frame, now)])
       else frame_buffer t ++ [(frame, now)]) /\
  max_buffer_size (@__init__ Frame) = BUFFER_SECONDS (@__init__ Frame) * FPS (@__init__ Frame).
Proof.
  intros Hrec Hfps Hempty pushed s'.
  destruct (recording_loop_from_empty s inputs Hrec Hfps Hempty) as (s1 & Hrun & Hbuf & _).
  assert (Hs' : frame_buffer s' = drop (length pushed - max_buffer_size s) pushed).
  { unfold s', exec. rewrite Hrun. exact Hbuf. }
  split; [|split; [exact Hs'|split; [|reflexivity]]].
  - rewrite Hs', length_drop. lia.
  - intros t frame now fc Ht.
    destruct (loop_body_frame t frame now fc Ht) as (t' & Hstep & Hb & _).
    unfold exec. rewrite Hstep. exact Hb.
Qed.

(** C2.  Number the frames read 1, 2, ... and let [K] of them be read into
    an empty buffer of capacity [C <= K].  The copy an export takes right
    after is the frames numbered [K - C + 1, ..., K] in that order, that is
    the numbers in (K - C, K] in strictly increasing order; and an export
    whose writer stores every frame writes exactly those to its file. *)
Theorem C2_snapshot_window s (C K : nat) (frame_of : nat -> Frame)
    (time_of : nat -> timestamp) :
  recording s = true -> 0 < FPS s -> frame_buffer s = [] ->
  max_buffer_size s = C -> C <= K ->
  let entry k := (frame_of k, time_of k) in
  let s' := exec (recording_loop (reads (map entry (seq 1 K)))) s in
  snapshot s' = map entry (seq (K - C + 1) C) /\
  length (snapshot s') = C /\
  (forall k, In k (seq (K - C + 1) C) <-> K - C < k <= K) /\
  StronglySorted lt (seq (K - C + 1) C) /\
  (forall now w, 0 < C -> opens w = true ->
     (forall k, write_result_at w k = WriteStored) ->
     files (exec (save_highlight now w) s') !! highlight_path s' now =
       Some (map frame_of (seq (K - C + 1) C))).
Proof.
  intros Hrec Hfps Hempty Hcap HCK entry s'.
  assert (Hsnap : snapshot s' = map entry (seq (K - C + 1) C)).
  { destruct (recording_loop_from_empty s (reads (map entry (seq 1 K))) Hrec Hfps Hempty)
      as (s1 & Hrun & Hbuf & _).
    unfold snapshot, s', exec. rewrite Hrun. simpl.
    rewrite Hbuf, frames_read_reads, Hcap, length_map, length_seq.
    change (map entry) with (fmap (M := list) entry).
    rewrite <- fmap_drop, drop_seq. do 2 f_equal; lia. }
  split; [exact Hsnap|]. split; [by rewrite Hsnap, length_map, length_seq|].
  split; [intros k; rewrite in_seq; lia|]. split.
  - generalize (K - C + 1). clear. induction C as [|c IH]; intros a; simpl.
    + constructor.
    + constructor; [apply IH|].
      apply Forall_forall. intros k Hk. apply elem_of_seq in Hk. lia.
  - intros now w HC Hop Hall. unfold snapshot in Hsnap.
    rewrite save_highlight_file; [|rewrite Hsnap; destruct C; [lia|done]|done].
    rewrite (proj1 (stored_frames_all w _ Hall 0)), Hsnap.
    by rewrite map_map.
Qed.

End BufferClaims.

Lemma C1_witness :
  let inputs := [ReadFrame 10 0%Q; ReadFailed; ReadFrame 11 1%Q; ReadFrame 12 2%Q] in
  let s' := exec (recording_loop inputs) Fixtures.tiny in
  length (frame_buffer s') = min 3 2 /\
  frame_buffer s' = [(11, 1%Q); (12, 2%Q)].
Proof.
  pose proof (C1_buffer_keeps_most_recent Fixtures.tiny
                [ReadFrame 10 0%Q; ReadFailed; ReadFrame 11 1%Q; ReadFrame 12 2%Q]
                eq_refl (Nat.lt_0_succ 1) eq_refl) as (Hlen & Hbuf & _).
  split; [exact Hlen | exact Hbuf].
Defined.

(** The scenario of two minutes at 15 frames per second: after frames
    1..1800 the copy is frames 1..1800; after frame 1801 it is frames
    2..1801, still 1800 of them. *)
Lemma C2_witness :
  let after K :=
    exec (recording_loop (reads (map Fixtures.numbered (seq 1 K)))) Fixtures.recorder0 in
  (snapshot (after 1800) = map Fixtures.numbered (seq 1 1800) /\
   length (snapshot (after 1800)) = 1800) /\
  (snapshot (after 1801) = map Fixtures.numbered (seq 2 1800) /\
   length (snapshot (after 1801)) = 1800).
Proof.
  split.
  - pose proof (C2_snapshot_window Fixtures.recorder0 1800 1800 (fun k => k)
                  (fun k => (inject_Z (Z.of_nat k) / 15)%Q)
                  eq_refl (Nat.lt_0_succ 14) eq_refl eq_refl (Nat.le_refl 1800))
      as (Hsnap & Hlen & _).
    split; [exact Hsnap | exact Hlen].
  - pose proof (C2_snapshot_window Fixtures.recorder0 1800 1801 (fun k => k)
                  (fun k => (inject_Z (Z.of_nat k) / 15)%Q)
                  eq_refl (Nat.lt_0_succ 14) eq_refl eq_refl (Nat.le_succ_diag_r 1800))
      as (Hsnap & Hlen & _).
    split; [exact Hsnap | exact Hlen].
Defined.

(** ** Read failures and pacing *)

Section LoopClaims.
Context {Frame : Type}.
Implicit Types (s : state Frame) (w : @video_writer Frame).

(** C4, as the loop has it.  A read that returns no frame is handled the
    same way every time: the warning is printed, nothing is pushed, nothing
    is slept, and the loop goes on; however many such reads come in a row,
    the loop neither exits nor raises.  The loop ends on a failure of the
    source only when the read raises: nothing catches the exception, which
    leaves the method where the read was made and ends the thread the loop
    runs in, and that thread only.  Either way the buffer is as it was, and
    an export with a writer that opens and stores every frame returns
    normally, leaving the buffered frames in its file. *)
Theorem C4_read_failures_are_retried s (n fc : nat) :
  recording s = true ->
  let s' := exec (run_loop (replicate n ReadFailed) fc) s in
  result (run_loop (replicate n (@ReadFailed Frame)) fc) s = Returns (LoopRunning fc) /\
  frame_buffer s' = frame_buffer s /\
  stdout s' = stdout s ++ replicate n WarningFailedToReadFrame /\
  slept s' = slept s /\
  recording s' = true /\
  (forall rest,
     let raising := replicate n ReadFailed ++ ReadRaises :: rest in
     run_loop raising fc s = (Raises Cv2Error, s') /\
     thread_start (run_loop raising fc) s = (Returns tt, s')) /\
  (forall now w,
     frame_buffer s <> [] -> 0 < FPS s -> opens w = true ->
     (forall k, write_result_at w k = WriteStored) ->
     result (save_highlight now w) s' = Returns tt /\
     files (exec (save_highlight now w) s') !! highlight_path s' now =
       Some (map fst (frame_buffer s))).
Proof.
  intros Hrec s'.
  pose (t := set_stdout (stdout s ++ replicate n WarningFailedToReadFrame) s).
  assert (Hs' : s' = t).
  { unfold s', exec. by rewrite run_loop_failures. }
  rewrite Hs'. clear Hs' s'.
  unfold result at 1. rewrite run_loop_failures by done. cbn [fst].
  do 4 (split; [reflexivity|]). split; [exact Hrec|].
  assert (Hraise : forall rest,
            run_loop (replicate n ReadFailed ++ ReadRaises :: rest) fc s
            = (Raises Cv2Error, t)).
  { intros rest. rewrite run_loop_failures_then by done. fold t.
    cbn [run_loop]. replace (recording t) with true by (symmetry; exact Hrec).
    reflexivity. }
  split.
  { intros rest. cbv zeta. split; [apply Hraise|].
    unfold thread_start, exec. by rewrite Hraise. }
  intros now w Hne Hfps Hop Hall.
  destruct (stored_frames_all w (frame_buffer s) Hall 0) as [Hstored Hnoraise].
  split.
  - unfold result. by rewrite (save_highlight_good t now w Hne Hop Hnoraise Hfps).
  - rewrite (save_highlight_file t now w Hne Hop). by rewrite <- Hstored.
Qed.

(** C6, as the loop has it.  An iteration that reads a frame ends with one
    [time.sleep] of a whole frame period [1 / FPS], the same whatever the
    iteration took; an iteration whose read fails does not sleep. *)
Theorem C6_sleeps_full_period s (frame : Frame) (now : timestamp) (fc : nat) :
  0 < FPS s ->
  (exists period,
     slept (exec (loop_body (ReadFrame frame now) fc) s) = slept s ++ [period] /\
     (period * inject_Z (Z.of_nat (FPS s)) == 1)%Q) /\
  slept (exec (loop_body ReadFailed fc) s) = slept s.
Proof.
  intros Hfps. split; [|reflexivity].
  destruct (loop_body_frame s frame now fc Hfps) as (s' & Hstep & _ & Hslept & _).
  unfold exec. rewrite Hstep. eexists. split; [exact Hslept|].
  field. unfold Qeq. simpl. lia.
Qed.

End LoopClaims.

(** A source that has failed for good, its reads returning no frame: after
    a hundred such reads in a row the loop is still running, it has not
    exited. *)
Lemma C4_counterexample :
  result (recording_loop (replicate 100 ReadFailed)) Fixtures.three_frames
    = Returns (LoopRunning 0) /\
  result (recording_loop (replicate 100 ReadFailed)) Fixtures.three_frames
    <> Returns LoopExited /\
  frame_buffer (exec (recording_loop (replicate 100 ReadFailed)) Fixtures.three_frames)
    = frame_buffer Fixtures.three_frames.
Proof. vm_compute. repeat split. discriminate. Qed.

Lemma C4_witness :
  let s' := exec (run_loop (replicate 3 ReadFailed) 3) Fixtures.three_frames in
  result (run_loop (replicate 3 (@ReadFailed nat)) 3) Fixtures.three_frames
    = Returns (LoopRunning 3) /\
  frame_buffer s' = frame_buffer Fixtures.three_frames /\
  run_loop (replicate 3 ReadFailed ++ [ReadRaises]) 3 Fixtures.three_frames
    = (Raises Cv2Error, s') /\
  result (save_highlight Fixtures.press1 Fixtures.w_good) s' = Returns tt /\
  files (exec (save_highlight Fixtures.press1 Fixtures.w_good) s')
    !! highlight_path s' Fixtures.press1 = Some [10; 11; 12].
Proof.
  pose proof (C4_read_failures_are_retried Fixtures.three_frames 3 3 eq_refl)
    as (Hres & Hbuf & _ & _ & _ & Hraise & Hexport).
  destruct (Hexport Fixtures.press1 Fixtures.w_good) as (Hok & Hfile).
  - discriminate.
  - apply Nat.lt_0_succ.
  - reflexivity.
  - reflexivity.
  - split; [exact Hres|]. split; [exact Hbuf|].
    split; [exact (proj1 (Hraise []))|]. split; [exact Hok | exact Hfile].
Defined.

(** An iteration of the started recorder that reads a frame asks for a sleep
    of 1/15 s.  The loop takes no measure of what the iteration took; had the
    read and push taken a whole second, the cadence rule would give no sleep
    at all. *)
Lemma C6_counterexample :
  slept (exec (loop_body (ReadFrame 10 0%Q) 0) Fixtures.recorder0) = [(1 # 15)%Q] /\
  (cadence_sleep (1 # 15) 1 == 0)%Q /\
  ~ (1 # 15 == cadence_sleep (1 # 15) 1)%Q.
Proof.
  split; [reflexivity|]. split; [reflexivity|]. vm_compute. discriminate.
Qed.

Lemma C6_witness :
  (exists period,
     slept (exec (loop_body (ReadFrame 10 0%Q) 0) Fixtures.recorder0) = [period] /\
     (period * 15 == 1)%Q) /\
  slept (exec (loop_body ReadFailed 0) Fixtures.recorder0) = [].
Proof.
  exact (C6_sleeps_full_period Fixtures.recorder0 10 0%Q 0 (Nat.lt_0_succ 14)).
Defined.

(** ** Exports *)

Section ExportClaims.
Context {Frame : Type}.
Implicit Types (s : state Frame) (w : @video_writer Frame).

(** C5.  An export that finds the buffer empty makes no call on the video
    writer, leaves the files as they are, prints the error "No frames in
    buffer to save!" and returns normally; nothing else changes, whatever
    the writer would have done. *)
Theorem C5_empty_buffer_reported s (now : datetime) w :
  snapshot s = [] ->
  let s' := exec (save_highlight now w) s in
  result (save_highlight now w) s = Returns tt /\
  writer_calls s' = writer_calls s /\
  files s' = files s /\
  stdout s' = stdout s ++ [ErrorNoFrames] /\
  s' = set_stdout (stdout s ++ [ErrorNoFrames]) s /\
  (forall w', save_highlight now w' s = save_highlight now w s).
Proof.
  intros Hempty s'. unfold snapshot in Hempty. unfold s', exec, result.
  rewrite save_highlight_empty by done. cbn [fst snd]. state_simpl.
  do 5 (split; [reflexivity|]). intros w'. by rewrite save_highlight_empty.
Qed.

(** C7, as the export has it.  For an export from a non-empty buffer:
    - if the writer does not open, the error "Could not open video writer!"
      is printed, no [write] is made, the files are left as they are and the
      method returns normally;
    - if the writer opens, the frames go straight to the final path: the
      file there holds the frames stored so far, also when a write was lost
      or raised; when no write raises the export reports success with the
      count of all frames of the buffer, lost ones included; when a write
      raises, the exception leaves the method and [release] is not called;
    - in every case the button callback, which runs the export in a thread
      of its own, returns normally. *)
Theorem C7_encoder_failures s (now : datetime) w :
  frame_buffer s <> [] ->
  let s' := exec (save_highlight now w) s in
  let path := highlight_path s now in
  let n := length (frame_buffer s) in
  (opens w = false ->
     result (save_highlight now w) s = Returns tt /\
     stdout s' = stdout s ++ [Saving n (highlight_filename now); ErrorCouldNotOpenWriter] /\
     writer_calls s' = writer_calls s ++ [WriterOpen path] /\
     files s' = files s) /\
  (opens w = true ->
     files s' !! path = Some (stored_frames w 0 (frame_buffer s)) /\
     (write_raises w 0 (frame_buffer s) = false -> 0 < FPS s ->
        result (save_highlight now w) s = Returns tt /\
        exists duration size,
          stdout s' = stdout s ++ [Saving n (highlight_filename now);
                                   HighlightSaved (highlight_filename now) duration size n]) /\
     (write_raises w 0 (frame_buffer s) = true ->
        result (save_highlight now w) s = Raises Cv2Error /\
        stdout s' = stdout s ++ [Saving n (highlight_filename now)] /\
        ~ In (WriterRelease path) (skipn (length (writer_calls s)) (writer_calls s')))) /\
  result (button_pressed now w) s = Returns tt.
Proof.
  intros Hne s' path n. split; [|split; [|reflexivity]].
  - intros Hop. unfold s', exec, result.
    rewrite save_highlight_not_opened by done. cbn [fst snd]. state_simpl. done.
  - intros Hop. split; [by apply save_highlight_file|]. split.
    + intros Hnr Hfps. unfold s', exec, result.
      rewrite save_highlight_good by done. cbn [fst snd]. state_simpl.
      split; [done|]. by do 2 eexists.
    + intros Hr. unfold s', exec, result.
      rewrite save_highlight_opened by done. rewrite Hr. cbn [fst snd]. state_simpl.
      split; [done|]. split; [done|].
      rewrite skipn_app, skipn_all, Nat.sub_diag. simpl.
      intros [Hc|Hin]; [discriminate|].
      apply list_elem_of_In, elem_of_replicate in Hin. destruct Hin; discriminate.
Qed.

(** C9.  An export that runs to its end (the writer opens, no write raises,
    [FPS] is positive) reports as frame count [F] the number of frames of
    the buffer, and a duration [d] with [d * FPS = F], that is [d = F / FPS];
    when every write is stored, the file holds exactly [F] frames. *)
Theorem C9_duration_round_trip s (now : datetime) w :
  frame_buffer s <> [] -> opens w = true ->
  write_raises w 0 (frame_buffer s) = false -> 0 < FPS s ->
  let s' := exec (save_highlight now w) s in
  let F := length (frame_buffer s) in
  exists duration size,
    stdout s' = stdout s ++ [Saving F (highlight_filename now);
                             HighlightSaved (highlight_filename now) duration size F] /\
    (duration * inject_Z (Z.of_nat (FPS s)) == inject_Z (Z.of_nat F))%Q /\
    (duration == inject_Z (Z.of_nat F) / inject_Z (Z.of_nat (FPS s)))%Q /\
    ((forall k, write_result_at w k = WriteStored) ->
       exists content,
         files s' !! highlight_path s now = Some content /\ length content = F).
Proof.
  intros Hne Hop Hnr Hfps s' F. unfold s', exec.
  rewrite save_highlight_good by done. cbn [snd]. state_simpl.
  do 2 eexists. split; [reflexivity|]. split; [|split; [reflexivity|]].
  - subst F. field. unfold Qeq. simpl. lia.
  - intros Hall. eexists. split; [apply lookup_insert_eq|].
    rewrite (proj1 (stored_frames_all w _ Hall 0)). by rewrite length_map.
Qed.

End ExportClaims.

Lemma C5_witness :
  let s' := exec (save_highlight Fixtures.press1 Fixtures.w_good) Fixtures.recorder0 in
  result (save_highlight Fixtures.press1 Fixtures.w_good) Fixtures.recorder0 = Returns tt /\
  writer_calls s' = [] /\
  files s' = ∅ /\
  stdout s' = [GpioSetupComplete; ErrorNoFrames].
Proof.
  pose proof (C5_empty_buffer_reported Fixtures.recorder0 Fixtures.press1 Fixtures.w_good
                eq_refl) as (Hres & Hcalls & Hfiles & Hout & _).
  split; [exact Hres|]. split; [exact Hcalls|]. split; [exact Hfiles | exact Hout].
Defined.

(** Two exports of three buffered frames.  With a writer whose second write
    is lost, the export reports three frames saved and no error, while the
    file under the final name holds two; with a writer whose second write
    raises, the exception leaves the method, nothing is reported, and the
    file under the final name holds one frame. *)
Lemma C7_counterexample :
  let path := highlight_path Fixtures.three_frames Fixtures.press1 in
  let lost := exec (save_highlight Fixtures.press1 Fixtures.w_loses_second)
                Fixtures.three_frames in
  let raised := exec (save_highlight Fixtures.press1 Fixtures.w_raises_second)
                  Fixtures.three_frames in
  (files lost !! path = Some [10; 12] /\
   last (stdout lost) =
     Some (HighlightSaved "highlight_20261104_120000.avi" (3 # 15) (2048 # 1048576) 3)) /\
  (files raised !! path = Some [10] /\
   result (save_highlight Fixtures.press1 Fixtures.w_raises_second) Fixtures.three_frames
     = Raises Cv2Error /\
   last (stdout raised) = Some (Saving 3 "highlight_20261104_120000.avi")).
Proof. vm_compute. repeat split. Qed.

Lemma C7_witness :
  let s := Fixtures.three_frames in
  let s' := exec (save_highlight Fixtures.press1 Fixtures.w_closed) s in
  result (save_highlight Fixtures.press1 Fixtures.w_closed) s = Returns tt /\
  files s' = files s /\
  result (button_pressed Fixtures.press1 Fixtures.w_raises_second) s = Returns tt.
Proof.
  assert (Hne : frame_buffer Fixtures.three_frames <> []) by discriminate.
  pose proof (C7_encoder_failures Fixtures.three_frames Fixtures.press1 Fixtures.w_closed Hne)
    as (Hclosed & _ & _).
  pose proof (C7_encoder_failures Fixtures.three_frames Fixtures.press1
                Fixtures.w_raises_second Hne) as (_ & _ & Hthread).
  destruct (Hclosed eq_refl) as (Hres & _ & _ & Hfiles).
  split; [exact Hres|]. split; [exact Hfiles | exact Hthread].
Defined.

Lemma C9_witness :
  let s' := exec (save_highlight Fixtures.press1 Fixtures.w_good) Fixtures.three_frames in
  exists duration size,
    stdout s' = stdout Fixtures.three_frames ++
                [Saving 3 "highlight_20261104_120000.avi";
                 HighlightSaved "highlight_20261104_120000.avi" duration size 3] /\
    (duration * 15 == 3)%Q.
Proof.
  assert (Hne : frame_buffer Fixtures.three_frames <> []) by discriminate.
  destruct (C9_duration_round_trip Fixtures.three_frames Fixtures.press1 Fixtures.w_good
              Hne eq_refl eq_refl (Nat.lt_0_succ 14))
    as (duration & size & Hout & Hrt & _).
  exists duration, size. split; [exact Hout | exact Hrt].
Defined.

(** ** Output names *)

Section NameClaims.
Context {Frame : Type}.
Implicit Types (s : state Frame) (w : @video_writer Frame).

(** An export changes no file but the one at its own path. *)
Lemma save_highlight_other_files s (now : datetime) w (path' : string) :
  path' <> highlight_path s now ->
  files (exec (save_highlight now w) s) !! path' = files s !! path'.
Proof.
  intros Hother. unfold exec.
  assert (Hcases : frame_buffer s = [] \/ frame_buffer s <> []).
  { destruct (frame_buffer s); [by left | by right]. }
  destruct Hcases as [He|Hne].
  - by rewrite save_highlight_empty.
  - destruct (opens w) eqn:Hop.
    + rewrite save_highlight_opened by done.
      destruct (write_raises _ _ _); [|destruct (FPS s =? 0)];
        cbn [snd]; state_simpl; by rewrite lookup_insert_ne.
    + by rewrite save_highlight_not_opened.
Qed.

(** What an export does to the files, and how it ends, depends on the
    buffer, the directory, the frame rate and the files only. *)
Lemma save_highlight_agree s t (now : datetime) w :
  frame_buffer s = frame_buffer t -> HIGHLIGHTS_DIR s = HIGHLIGHTS_DIR t ->
  FPS s = FPS t -> files s = files t ->
  result (save_highlight now w) s = result (save_highlight now w) t /\
  files (exec (save_highlight now w) s) = files (exec (save_highlight now w) t).
Proof.
  intros Hb Hd Hf Hfiles. unfold exec, result.
  assert (Hcases : frame_buffer s = [] \/ frame_buffer s <> []).
  { destruct (frame_buffer s); [by left | by right]. }
  destruct Hcases as [He|Hne].
  - rewrite !save_highlight_empty by congruence. cbn [fst snd]. state_simpl. done.
  - assert (Ht : frame_buffer t <> []) by congruence.
    destruct (opens w) eqn:Hop.
    + rewrite !save_highlight_opened by done.
      unfold highlight_path. rewrite <- Hb, <- Hd, <- Hf, <- Hfiles.
      destruct (write_raises _ _ _); [|destruct (FPS s =? 0)];
        cbn [fst snd]; state_simpl; done.
    + rewrite !save_highlight_not_opened by done. cbn [fst snd]. state_simpl. done.
Qed.

(** C3, as the export names its file.  The file name is
    highlight_<YYYYMMDD>_<HHMMSS>.avi, built from the wall-clock second
    alone: two exports have the same name, and the same path, exactly when
    their instants fall in the same second.  An export leaves every file at
    another path untouched, and one whose writer opens replaces whatever was
    at its own path by the frames it writes. *)
Theorem C3_names_by_second s (a b : datetime) :
  datetime_ok a = true -> datetime_ok b = true ->
  (highlight_filename a = highlight_filename b <-> same_second a b) /\
  (highlight_path s a = highlight_path s b <-> same_second a b) /\
  highlight_filename a =
    "highlight_" +:+ pad4 (year a) +:+ pad2 (month a) +:+ pad2 (day a) +:+ "_" +:+
    pad2 (hour a) +:+ pad2 (minute a) +:+ pad2 (second a) +:+ ".avi" /\
  (forall w path', path' <> highlight_path s b ->
     files (exec (save_highlight b w) s) !! path' = files s !! path') /\
  (forall w, frame_buffer s <> [] -> opens w = true ->
     files (exec (save_highlight b w) s) !! highlight_path s b =
       Some (stored_frames w 0 (frame_buffer s))).
Proof.
  intros Ha Hb. split; [|split; [|split; [reflexivity|split]]].
  - split; [by apply highlight_filename_inj|].
    intros H. unfold highlight_filename. by rewrite (strftime_same_second a b H).
  - split; [by apply highlight_path_inj|].
    intros H. unfold highlight_path, highlight_filename.
    by rewrite (strftime_same_second a b H).
  - intros w path' Hother. by apply save_highlight_other_files.
  - intros w Hne Hop. by apply save_highlight_file.
Qed.

(** C10.  [stop_recording] returns normally having cleared
    [self.recording], released the camera if there is one, cleaned up the
    GPIO and printed its two lines; it changes nothing else.  The buffer
    and the files are as before, so an export after the stop ends as, and
    writes what, the same export before the stop would have. *)
Theorem C10_stop_keeps_buffer s :
  let s' := exec stop_recording s in
  result stop_recording s = Returns tt /\
  s' = set_stdout (stdout s ++ [StoppingRecording; RecordingStopped])
         (set_gpio GpioCleanedUp
            (set_camera (match camera s with
                         | Some _ => Some CaptureReleased
                         | None => None
                         end)
               (set_recording false s))) /\
  frame_buffer s' = frame_buffer s /\
  recording s' = false /\
  files s' = files s /\
  (forall now w,
     result (save_highlight now w) s' = result (save_highlight now w) s /\
     files (exec (save_highlight now w) s') = files (exec (save_highlight now w) s)).
Proof.
  intros s'.
  assert (Hs' : s' = set_stdout (stdout s ++ [StoppingRecording; RecordingStopped])
         (set_gpio GpioCleanedUp
            (set_camera (match camera s with
                         | Some _ => Some CaptureReleased
                         | None => None
                         end)
               (set_recording false s)))).
  { unfold s', exec, stop_recording, bind, print, modify, gets, ret. state_simpl.
    destruct (camera s) eqn:Ec; cbn [snd]; apply state_eq; state_simpl;
      rewrite ?Ec; try reflexivity; by rewrite <- (assoc_L (++)). }
  split.
  { unfold result, stop_recording, bind, print, modify, gets, ret. state_simpl.
    by destruct (camera s). }
  split; [exact Hs'|]. rewrite Hs'. state_simpl.
  do 3 (split; [reflexivity|]).
  intros now w. apply save_highlight_agree; reflexivity.
Qed.

End NameClaims.

(** Two presses 600 ms apart in one second, a frame being read in between:
    both exports use the same name, and after the second one the path holds
    the second export's frames; the first export's file is gone and the
    directory has one file. *)
Lemma C3_counterexample :
  let s1 := exec (button_pressed Fixtures.press1 Fixtures.w_good) Fixtures.three_frames in
  let s2 := exec (loop_body (ReadFrame 13 (3 # 15)%Q) 3) s1 in
  let s3 := exec (button_pressed Fixtures.press2 Fixtures.w_good) s2 in
  let path := highlight_path Fixtures.three_frames Fixtures.press1 in
  Fixtures.press1 <> Fixtures.press2 /\
  same_second Fixtures.press1 Fixtures.press2 /\
  highlight_filename Fixtures.press1 = highlight_filename Fixtures.press2 /\
  files s1 !! path = Some [10; 11; 12] /\
  files s3 !! path = Some [10; 11; 12; 13] /\
  size (files s3) = 1.
Proof.
  split; [discriminate|]. split; [by repeat split|].
  vm_compute. repeat split.
Qed.

Lemma C3_witness :
  (highlight_path Fixtures.three_frames Fixtures.press1 =
   highlight_path Fixtures.three_frames Fixtures.press3
   <-> same_second Fixtures.press1 Fixtures.press3) /\
  (highlight_path Fixtures.three_frames Fixtures.press1 =
   highlight_path Fixtures.three_frames Fixtures.press2
   <-> same_second Fixtures.press1 Fixtures.press2).
Proof.
  split.
  - exact (proj1 (proj2 (C3_names_by_second Fixtures.three_frames
                           Fixtures.press1 Fixtures.press3 eq_refl eq_refl))).
  - exact (proj1 (proj2 (C3_names_by_second Fixtures.three_frames
                           Fixtures.press1 Fixtures.press2 eq_refl eq_refl))).
Defined.

(** * Further properties of the recorder *)

(** ** The capture loop *)

Section LoopExtras.
Context {Frame : Type}.
Implicit Types (s : state Frame) (buf : list (Frame * timestamp)).

(** What [stop_recording] does, in one equation. *)
Lemma stop_recording_exact s :
  stop_recording s =
  (Returns tt,
   set_stdout (stdout s ++ [StoppingRecording; RecordingStopped])
     (set_gpio GpioCleanedUp
        (set_camera (match camera s with
                     | Some _ => Some CaptureReleased
                     | None => None
                     end)
           (set_recording false s)))).
Proof.
  unfold stop_recording, bind, print, modify, gets, ret. state_simpl.
  destruct (camera s) eqn:Ec; f_equal; apply state_eq; state_simpl;
    rewrite ?Ec; try reflexivity; by rewrite <- (assoc_L (++)).
Qed.

(** The whole effect of an iteration that reads a frame. *)
Lemma loop_body_frame_exact s frame now fc :
  0 < FPS s ->
  let b' := buffer_after_push (max_buffer_size s) (frame_buffer s) (frame, now) in
  loop_body (ReadFrame frame now) fc s =
  (Returns (fc + 1),
   set_slept (slept s ++ [(inject_Z 1 / inject_Z (Z.of_nat (FPS s)))%Q])
     (set_stdout
        (stdout s ++ if (fc + 1) mod (FPS s * 10) =? 0
                     then [RecordingBuffer (length b')] else [])
        (set_frame_buffer b' s))).
Proof.
  intros Hfps b'.
  assert (Hmod : (FPS s * 10 =? 0) = false) by (apply Nat.eqb_neq; lia).
  assert (Hdiv : (FPS s =? 0) = false) by (apply Nat.eqb_neq; lia).
  subst b'.
  unfold loop_body, buffer_after_push, bind, deque_append, len_frame_buffer, gets, modify,
    deque_popleft, py_mod, py_truediv, time_sleep, print, ret, raise; simpl.
  destruct (max_buffer_size s <? length (frame_buffer s ++ [(frame, now)])) eqn:Ecap; simpl.
  - destruct (frame_buffer s) as [|h t] eqn:Ebuf; simpl; rewrite Hmod; simpl;
      destruct ((fc + 1) mod _ =? 0); simpl; rewrite Hdiv; simpl;
      f_equal; apply state_eq; state_simpl; try reflexivity; by rewrite ?app_nil_r.
  - rewrite Hmod; simpl; destruct ((fc + 1) mod _ =? 0); simpl; rewrite Hdiv; simpl;
      f_equal; apply state_eq; state_simpl; try reflexivity; by rewrite ?app_nil_r.
Qed.

Lemma div_succ_step (k m : nat) :
  0 < m -> (k + 1) / m = k / m + (if (k + 1) mod m =? 0 then 1 else 0).
Proof.
  intros Hm.
  pose proof (Nat.div_mod_eq k m) as Hk.
  pose proof (Nat.mod_upper_bound k m ltac:(lia)) as Hr.
  destruct (Nat.eq_dec (k mod m) (m - 1)) as [Hlast|Hnot].
  - assert (Hdiv : (k + 1) / m = k / m + 1).
    { symmetry. apply (Nat.div_unique (k + 1) m (k / m + 1) 0); nia. }
    assert (Hmod : (k + 1) mod m = 0).
    { symmetry. apply (Nat.mod_unique (k + 1) m (k / m + 1) 0); nia. }
    rewrite Hdiv, Hmod. reflexivity.
  - assert (Hdiv : (k + 1) / m = k / m).
    { symmetry. apply (Nat.div_unique (k + 1) m (k / m) (k mod m + 1)); nia. }
    assert (Hmod : (k + 1) mod m = k mod m + 1).
    { symmetry. apply (Nat.mod_unique (k + 1) m (k / m) (k mod m + 1)); nia. }
    rewrite Hdiv, Hmod. replace (k mod m + 1 =? 0) with false; [lia|].
    symmetry. apply Nat.eqb_neq. lia.
Qed.

(** An iteration that reads a frame on a recorder whose frame rate is zero:
    the frame is pushed, then the status test divides by zero. *)
Lemma loop_body_frame_zero s frame now fc :
  FPS s = 0 ->
  loop_body (ReadFrame frame now) fc s =
  (Raises ZeroDivisionError,
   set_frame_buffer
     (buffer_after_push (max_buffer_size s) (frame_buffer s) (frame, now)) s).
Proof.
  intros Hfps.
  unfold loop_body, buffer_after_push, bind, deque_append, len_frame_buffer, gets, modify,
    deque_popleft, py_mod, py_truediv, time_sleep, print, ret, raise; simpl.
  destruct (max_buffer_size s <? length (frame_buffer s ++ [(frame, now)])) eqn:Ecap; simpl.
  - destruct (frame_buffer s) as [|h t] eqn:Ebuf; simpl; rewrite Hfps; simpl;
      f_equal; apply state_eq; state_simpl; reflexivity.
  - rewrite Hfps; simpl. reflexivity.
Qed.

(** One iteration, on any recorder: it changes the buffer, the output and
    the sleeps, nothing else, and what it does depends on nothing but the
    rate, the limit and the buffer. *)
Lemma loop_body_agree s t (i : @capture_input Frame) fc :
  FPS s = FPS t -> max_buffer_size s = max_buffer_size t ->
  frame_buffer s = frame_buffer t ->
  exists r b added naps,
    b = match i with
        | ReadFrame frame now =>
            buffer_after_push (max_buffer_size s) (frame_buffer s) (frame, now)
        | _ => frame_buffer s
        end /\
    loop_body i fc s =
      (r, set_slept (slept s ++ naps) (set_stdout (stdout s ++ added) (set_frame_buffer b s))) /\
    loop_body i fc t =
      (r, set_slept (slept t ++ naps) (set_stdout (stdout t ++ added) (set_frame_buffer b t))).
Proof.
  intros HF HM HB. destruct i as [|frame now|].
  - exists (Returns fc), (frame_buffer s), [WarningFailedToReadFrame], [].
    split; [reflexivity|]. rewrite !loop_body_failed.
    split; f_equal; apply state_eq; state_simpl; rewrite ?app_nil_r; congruence.
  - destruct (Nat.eq_dec (FPS s) 0) as [Hz|Hnz].
    + exists (Raises ZeroDivisionError),
        (buffer_after_push (max_buffer_size s) (frame_buffer s) (frame, now)), [], [].
      split; [reflexivity|].
      rewrite (loop_body_frame_zero s) by done.
      rewrite (loop_body_frame_zero t) by congruence.
      rewrite <- HM, <- HB.
      split; f_equal; apply state_eq; state_simpl; rewrite ?app_nil_r; reflexivity.
    + eexists (Returns (fc + 1)), _, _, _.
      split; [reflexivity|].
      rewrite (loop_body_frame_exact s) by lia.
      rewrite (loop_body_frame_exact t) by lia.
      rewrite <- HF, <- HM, <- HB.
      split; f_equal; apply state_eq; state_simpl; reflexivity.
  - exists (Raises Cv2Error), (frame_buffer s), [], [].
    split; [reflexivity|].
    split; (unfold loop_body, raise; f_equal; apply state_eq; state_simpl;
            rewrite ?app_nil_r; congruence).
Qed.

(** A run of the loop, on any recorder and however it ends, changes the
    buffer, the output and the sleeps, nothing else. *)
Lemma run_loop_agree (inputs : list (@capture_input Frame)) : forall s t fc,
  FPS s = FPS t -> max_buffer_size s = max_buffer_size t ->
  frame_buffer s = frame_buffer t -> recording s = recording t ->
  exists r b added naps,
    run_loop inputs fc s =
      (r, set_slept (slept s ++ naps) (set_stdout (stdout s ++ added) (set_frame_buffer b s))) /\
    run_loop inputs fc t =
      (r, set_slept (slept t ++ naps) (set_stdout (stdout t ++ added) (set_frame_buffer b t))).
Proof.
  assert (Hidle : forall (r : outcome loop_end) s t, frame_buffer s = frame_buffer t ->
            exists r' b added naps,
              (r, s) = (r', set_slept (slept s ++ naps)
                              (set_stdout (stdout s ++ added) (set_frame_buffer b s))) /\
              (r, t) = (r', set_slept (slept t ++ naps)
                              (set_stdout (stdout t ++ added) (set_frame_buffer b t)))).
  { intros r s t HB. exists r, (frame_buffer s), [], [].
    split; f_equal; apply state_eq; state_simpl; rewrite ?app_nil_r; congruence. }
  induction inputs as [|i rest IH]; intros s t fc HF HM HB HR; cbn [run_loop];
    rewrite <- HR; destruct (recording s) eqn:Hrec; try by apply Hidle.
  unfold bind.
  destruct (loop_body_agree s t i fc HF HM HB) as (r & b & added & naps & _ & Hs & Ht).
  rewrite Hs, Ht. destruct r as [fc1|e].
  - set (s1 := set_slept _ _). set (t1 := set_slept _ _).
    destruct (IH s1 t1 fc1) as (r' & b' & added' & naps' & Hs' & Ht');
      [exact HF | exact HM | reflexivity | unfold s1, t1; state_simpl; congruence |].
    rewrite Hs', Ht'. exists r', b', (added ++ added'), (naps ++ naps').
    split; f_equal; apply state_eq; unfold s1, t1; state_simpl;
      rewrite ?(assoc_L (++)); reflexivity.
  - exists (Raises e), b, added, naps. by split.
Qed.

(** X1.  What a run of the loop adds up to.  Take a loop whose flag is set,
    whose frame rate is positive and whose buffer is within its limit.  It
    raises exactly when one of its reads raises, with what the read raised
    and without taking the inputs after it; otherwise it is still running
    when the inputs run out: it never ends by itself.  Up to there its frame
    count grows by the frames read; it sleeps one period per frame read and
    none for a read that returns no frame; it prints one warning per such
    read and one status line each time the frame count reaches a multiple of
    [FPS * 10], and these are all it prints; a status line never reports
    more frames than the limit. *)
Theorem X1_loop_accounting s (inputs : list (@capture_input Frame)) (fc : nat) :
  recording s = true -> 0 < FPS s ->
  length (frame_buffer s) <= max_buffer_size s ->
  let s' := exec (run_loop inputs fc) s in
  let N := length (frames_read inputs) in
  let m := FPS s * 10 in
  result (run_loop inputs fc) s =
    (if read_raises inputs then Raises Cv2Error else Returns (LoopRunning (fc + N))) /\
  slept s' = slept s ++ replicate N (inject_Z 1 / inject_Z (Z.of_nat (FPS s)))%Q /\
  exists added,
    stdout s' = stdout s ++ added /\
    length (List.filter is_warning added) = failed_reads inputs /\
    length (List.filter is_status added) = (fc + N) / m - fc / m /\
    length added = failed_reads inputs + ((fc + N) / m - fc / m) /\
    (forall n, In (RecordingBuffer n) added -> n <= max_buffer_size s).
Proof.
  revert s fc.
  induction inputs as [|i rest IH]; intros s fc Hrec Hfps Hlen s' N m;
    subst s' N m; unfold exec, result;
    cbn [run_loop frames_read failed_reads read_raises length];
    rewrite Hrec.
  - cbn [fst snd]. rewrite Nat.add_0_r, Nat.sub_diag, app_nil_r.
    split; [done|]. split; [done|]. exists []. rewrite app_nil_r. by repeat split.
  - destruct i as [|frame now|]; unfold bind.
    + rewrite loop_body_failed.
      set (t := set_stdout (stdout s ++ [WarningFailedToReadFrame]) s).
      destruct (IH t fc Hrec Hfps Hlen) as (Hres & Hslept & added & Hout & Hw & Hst & Hl & Hle).
      unfold exec, result in *. change (FPS t) with (FPS s) in *.
      change (max_buffer_size t) with (max_buffer_size s) in *.
      split; [exact Hres|]. split; [exact Hslept|].
      exists (WarningFailedToReadFrame :: added).
      split; [rewrite Hout; unfold t; state_simpl; by rewrite <- (assoc_L (++))|].
      split; [cbn; lia|]. split; [cbn; lia|]. split; [cbn; lia|].
      intros n [Hn|Hn]; [discriminate|by apply Hle].
    + rewrite (loop_body_frame_exact s frame now fc Hfps).
      set (b' := buffer_after_push (max_buffer_size s) (frame_buffer s) (frame, now)).
      set (line := if (fc + 1) mod (FPS s * 10) =? 0
                   then [RecordingBuffer (length b')] else []).
      set (t := set_slept _ _).
      assert (Hb' : length b' <= max_buffer_size s) by by apply buffer_after_push_length.
      destruct (IH t (fc + 1) Hrec Hfps Hb')
        as (Hres & Hslept & added & Hout & Hw & Hst & Hl & Hle).
      unfold exec, result in *. change (FPS t) with (FPS s) in *.
      change (max_buffer_size t) with (max_buffer_size s) in *.
      pose proof (div_succ_step fc (FPS s * 10) ltac:(lia)) as Hstep.
      pose proof (Nat.Div0.div_le_mono (fc + 1) (fc + 1 + length (frames_read rest))
                    (FPS s * 10) ltac:(lia)) as Hmono.
      cbn [length].
      replace (fc + S (length (frames_read rest)))
        with (fc + 1 + length (frames_read rest)) by lia.
      split; [exact Hres|]. split.
      { rewrite Hslept. unfold t. state_simpl. by rewrite <- (assoc_L (++)). }
      exists (line ++ added).
      split; [rewrite Hout; unfold t; state_simpl; by rewrite <- (assoc_L (++))|].
      rewrite !List.filter_app, !length_app.
      assert (Hline : length (List.filter is_warning line) = 0 /\
                      length (List.filter is_status line) = length line /\
                      length line = if (fc + 1) mod (FPS s * 10) =? 0 then 1 else 0).
      { unfold line. by destruct ((fc + 1) mod _ =? 0). }
      destruct Hline as (Hlw & Hls & Hll).
      split; [lia|]. split; [lia|]. split; [lia|].
      intros n Hn. apply in_app_or in Hn. destruct Hn as [Hn|Hn]; [|by apply Hle].
      unfold line in Hn. destruct ((fc + 1) mod _ =? 0); [|done].
      destruct Hn as [Hn|[]]. injection Hn as <-. exact Hb'.
    + unfold raise. cbn [fst snd length replicate]. rewrite Nat.add_0_r, Nat.sub_diag, app_nil_r.
      split; [done|]. split; [done|]. exists []. rewrite app_nil_r. by repeat split.
Qed.

(** X2.  The buffer's limit is an invariant of the loop, and its length
    never goes down.  One push makes the buffer one longer when it is below
    the limit and leaves its length as it is otherwise, so a buffer within
    the limit stays within it over any run (holding the newest entries),
    while one above the limit is never brought back to it.  A run changes
    neither the files nor the camera, the flag, the limit or the rate. *)
Theorem X2_buffer_limit_invariant s (inputs : list (@capture_input Frame)) (fc : nat) :
  recording s = true -> 0 < FPS s ->
  (forall frame now,
     length (frame_buffer (exec (loop_body (ReadFrame frame now) fc) s)) =
       if length (frame_buffer s) <? max_buffer_size s
       then length (frame_buffer s) + 1 else length (frame_buffer s)) /\
  (length (frame_buffer s) <= max_buffer_size s ->
     let s' := exec (run_loop inputs fc) s in
     length (frame_buffer s') <= max_buffer_size s' /\
     length (frame_buffer s) <= length (frame_buffer s') /\
     frame_buffer s' =
       drop (length (frame_buffer s ++ frames_read inputs) - max_buffer_size s)
            (frame_buffer s ++ frames_read inputs) /\
     same_surroundings s s').
Proof.
  intros Hrec Hfps. split.
  - intros frame now. unfold exec.
    rewrite (loop_body_frame_exact s frame now fc Hfps). cbn [snd]. state_simpl.
    unfold buffer_after_push. rewrite length_app. cbn [length].
    destruct (Nat.ltb_spec (max_buffer_size s) (length (frame_buffer s) + 1));
      destruct (Nat.ltb_spec (length (frame_buffer s)) (max_buffer_size s)); try lia.
    + destruct (frame_buffer s); cbn [app tail length]; [lia|].
      rewrite length_app. cbn [length]. lia.
    + rewrite length_app. cbn [length]. lia.
  - intros Hlen s'.
    destruct (run_loop_buffer inputs s fc Hrec Hfps Hlen) as (t & Hrun & Hbuf & Hsame).
    unfold s', exec. rewrite Hrun. cbn [snd].
    pose proof Hsame as (Hcap & _).
    split; [|split; [|split; [exact Hbuf | exact Hsame]]].
    + rewrite Hbuf, Hcap, length_drop. lia.
    + rewrite Hbuf, length_drop, length_app. lia.
Qed.


End LoopExtras.
(** ** Exports and stops *)

Section ExportExtras.
Context {Frame : Type}.
Implicit Types (s : state Frame) (w : @video_writer Frame).

(** The state an export leaves, whatever the outcome: the output, the files
    and the writer calls are all it may touch. *)
Lemma save_highlight_touches s (now : datetime) w :
  exists out fs calls,
    exec (save_highlight now w) s =
    set_stdout out (set_writer_calls calls (set_files fs s)).
Proof.
  assert (Hcases : frame_buffer s = [] \/ frame_buffer s <> []).
  { destruct (frame_buffer s); [by left | by right]. }
  unfold exec. destruct Hcases as [He|Hne].
  - rewrite save_highlight_empty by done. cbn [snd].
    exists (stdout s ++ [ErrorNoFrames]), (files s), (writer_calls s).
    apply state_eq; state_simpl; reflexivity.
  - destruct (opens w) eqn:Hop.
    + rewrite save_highlight_opened by done.
      destruct (write_raises _ _ _); [|destruct (FPS s =? 0)]; cbn [snd];
        do 3 eexists; apply state_eq; state_simpl; reflexivity.
    + rewrite save_highlight_not_opened by done. cbn [snd].
      do 3 eexists; apply state_eq; state_simpl; reflexivity.
Qed.

(** X4.  An export never changes the recorder: whether it ends normally,
    reports an error or raises, the frame buffer, the recording flag, the
    camera, the limit, the rate and the directory are as before, and it
    neither sleeps nor touches the GPIO.  The same holds for a button
    press. *)
Theorem X4_export_leaves_recorder s (now : datetime) w :
  let unchanged (s' : state Frame) :=
    frame_buffer s' = frame_buffer s /\ recording s' = recording s /\
    camera s' = camera s /\ max_buffer_size s' = max_buffer_size s /\
    FPS s' = FPS s /\ BUFFER_SECONDS s' = BUFFER_SECONDS s /\
    HIGHLIGHTS_DIR s' = HIGHLIGHTS_DIR s /\ slept s' = slept s /\ gpio s' = gpio s in
  unchanged (exec (save_highlight now w) s) /\
  unchanged (exec (button_pressed now w) s).
Proof.
  intros unchanged. split.
  - destruct (save_highlight_touches s now w) as (out & fs & calls & ->).
    unfold unchanged. state_simpl. by repeat split.
  - unfold exec at 1, button_pressed, bind, print, modify, thread_start. cbn [snd].
    destruct (save_highlight_touches
                (set_stdout (stdout s ++ [ButtonPressed]) s) now w)
      as (out & fs & calls & ->).
    unfold unchanged. state_simpl. by repeat split.
Qed.

(** X5.  Capture is not disturbed by an export: the loop run after an export
    ends as, and leaves the buffer that, the same run without the export
    would. *)
Theorem X5_capture_after_export s (now : datetime) w
    (inputs : list (@capture_input Frame)) (fc : nat) :
  recording s = true -> 0 < FPS s ->
  length (frame_buffer s) <= max_buffer_size s ->
  let exported := exec (save_highlight now w) s in
  result (run_loop inputs fc) exported = result (run_loop inputs fc) s /\
  frame_buffer (exec (run_loop inputs fc) exported) =
    frame_buffer (exec (run_loop inputs fc) s).
Proof.
  intros Hrec Hfps Hlen exported.
  destruct (save_highlight_touches s now w) as (out & fs & calls & Hexp).
  assert (Hb : frame_buffer exported = frame_buffer s)
    by (unfold exported; rewrite Hexp; reflexivity).
  assert (Hc : max_buffer_size exported = max_buffer_size s)
    by (unfold exported; rewrite Hexp; reflexivity).
  assert (Hf : FPS exported = FPS s) by (unfold exported; rewrite Hexp; reflexivity).
  assert (Hr : recording exported = recording s)
    by (unfold exported; rewrite Hexp; reflexivity).
  destruct (run_loop_buffer inputs s fc Hrec Hfps Hlen) as (t & Hrun & Hbuf & _).
  destruct (run_loop_buffer inputs exported fc) as (t' & Hrun' & Hbuf' & _);
    [congruence | lia | rewrite Hb, Hc; exact Hlen |].
  unfold result, exec. rewrite Hrun, Hrun'. cbn [fst snd].
  split; [reflexivity|]. rewrite Hbuf, Hbuf', Hb, Hc. reflexivity.
Qed.

Lemma writes_made_bound w entries : forall k,
  writes_made w k entries <= length entries /\
  (write_raises w k entries = false -> writes_made w k entries = length entries).
Proof.
  induction entries as [|e rest IH]; intros k; cbn [writes_made write_raises length].
  - by split.
  - destruct (IH (k + 1)) as [Hle Heq].
    destruct (write_result_at w k); split; try lia; try discriminate;
      intros Hnr; rewrite (Heq Hnr); reflexivity.
Qed.

(** X6.  The calls an export makes on the video writer.  It opens the writer
    once, on its own path; if the writer does not open it makes no other
    call; otherwise it writes the frames, one call per buffered frame unless
    a write raises, and then releases the writer, the release being made
    exactly when no write raised.  Every call is on the same path. *)
Theorem X6_writer_protocol s (now : datetime) w :
  frame_buffer s <> [] ->
  let s' := exec (save_highlight now w) s in
  let path := highlight_path s now in
  let writes := writes_made w 0 (frame_buffer s) in
  writer_calls s' =
    writer_calls s ++
    WriterOpen path ::
    (if opens w
     then replicate writes (WriterWrite path) ++
          (if write_raises w 0 (frame_buffer s) then [] else [WriterRelease path])
     else []) /\
  writes <= length (frame_buffer s) /\
  (write_raises w 0 (frame_buffer s) = false -> writes = length (frame_buffer s)).
Proof.
  intros Hne s' path writes.
  split; [|apply writes_made_bound].
  unfold s', exec. destruct (opens w) eqn:Hop.
  - rewrite save_highlight_opened by done.
    destruct (write_raises _ _ _); [|destruct (FPS s =? 0)]; cbn [snd]; state_simpl;
      rewrite <- ?(assoc_L (++)); cbn [app]; by rewrite ?app_nil_r.
  - rewrite save_highlight_not_opened by done. cbn [snd]. by state_simpl.
Qed.

(** X8.  An export whose writer opens adds at most one file: the paths with
    a file afterwards are those before together with the export's own path.
    The number of files grows by one when that path was free and stays the
    same when a file was already there. *)
Theorem X8_export_adds_one_file s (now : datetime) w :
  frame_buffer s <> [] -> opens w = true ->
  let s' := exec (save_highlight now w) s in
  let path := highlight_path s now in
  dom (files s') = {[path]} ∪ dom (files s) /\
  (files s !! path = None -> size (files s') = S (size (files s))) /\
  (is_Some (files s !! path) -> size (files s') = size (files s)).
Proof.
  intros Hne Hop s' path.
  assert (Hfiles : files s' = <[path := stored_frames w 0 (frame_buffer s)]> (files s)).
  { unfold s', exec. rewrite save_highlight_opened by done.
    by destruct (write_raises _ _ _); [|destruct (FPS s =? 0)]. }
  rewrite Hfiles. split; [apply dom_insert_L|]. split.
  - intros Hfree. by apply map_size_insert_None.
  - intros Htaken. by apply map_size_insert_Some.
Qed.

(** X9.  [stop_recording] can be repeated: it never raises, also when no
    camera was ever opened (it then leaves [self.camera] at [None]), and a
    second call changes nothing but the output, to which it adds its two
    lines again. *)
Theorem X9_stop_twice s :
  let once := exec stop_recording s in
  let twice := exec stop_recording once in
  result stop_recording s = Returns tt /\
  result stop_recording once = Returns tt /\
  twice = set_stdout (stdout once ++ [StoppingRecording; RecordingStopped]) once /\
  camera once = match camera s with
                | Some _ => Some CaptureReleased
                | None => None
                end.
Proof.
  intros once twice. subst twice once.
  unfold exec, result. rewrite !stop_recording_exact. cbn [fst snd].
  split; [reflexivity|]. split; [reflexivity|]. split; [|reflexivity].
  apply state_eq; state_simpl; try reflexivity. by destruct (camera s).
Qed.

End ExportExtras.

(** ** The shape of output names *)

Lemma digit_code (n : N) : N_of_ascii (digit n) = (48 + n mod 10)%N.
Proof.
  unfold digit. apply N_ascii_embedding.
  pose proof (N.mod_upper_bound n 10). lia.
Qed.

Lemma digit_not_sep (n : N) : Ascii.eqb (digit n) "/" = false.
Proof.
  apply Ascii.eqb_neq. intros H. apply (f_equal N_of_ascii) in H.
  rewrite digit_code in H. change (N_of_ascii "/") with 47%N in H.
  set (r := (n mod 10)%N) in H. lia.
Qed.

Lemma highlight_filename_no_sep (now : datetime) :
  has_sep (highlight_filename now) = false.
Proof.
  unfold highlight_filename, strftime, pad4, pad2.
  cbv beta iota delta [String.append]. cbn [has_sep].
  rewrite !digit_not_sep. reflexivity.
Qed.

(** X7.  For every time a clock can return (a year of four digits, month,
    day, hour, minute and second in their ranges), the name of a highlight
    has 29 characters: "highlight_", eight decimal digits, "_", six decimal
    digits, ".avi"; the first digit, the first of the year, is not 0.  It
    holds no path separator, so the path joined from it
    is the highlights directory (with a separator added unless it is empty
    or ends in one) followed by the name: the file lands directly in that
    directory. *)
Theorem X7_highlight_name_shape {Frame} (s : state Frame) (now : datetime) :
  datetime_ok now = true ->
  String.length (highlight_filename now) = 29 /\
  (exists stamp,
     highlight_filename now = "highlight_" +:+ stamp +:+ ".avi" /\
     String.length stamp = 15 /\
     String.get 8 stamp = Some "_"%char /\
     String.get 0 stamp <> Some "0"%char /\
     forall i c, String.get i stamp = Some c -> i <> 8 ->
                 (48 <= N_of_ascii c <= 57)%N) /\
  has_sep (highlight_filename now) = false /\
  highlight_path s now =
    (if String.eqb (HIGHLIGHTS_DIR s) EmptyString || endswith_sep (HIGHLIGHTS_DIR s)
     then HIGHLIGHTS_DIR s else HIGHLIGHTS_DIR s +:+ "/")
    +:+ highlight_filename now.
Proof.
  intros Hok.
  split; [reflexivity|]. split; [|split].
  - exists (strftime now). split; [reflexivity|]. split; [reflexivity|].
    split; [reflexivity|]. split.
    { cbn. intros H. injection H as H. apply (f_equal N_of_ascii) in H.
      rewrite digit_code in H. change (N_of_ascii "0") with 48%N in H.
      unfold datetime_ok in Hok. rewrite !andb_true_iff in Hok.
      destruct Hok as (((((((((Hlo & Hhi) & _) & _) & _) & _) & _) & _) & _) & _).
      apply N.leb_le in Hlo, Hhi.
      assert (H1 : (1 <= year now / 1000)%N)
        by (apply N.div_le_lower_bound; [done|]; exact Hlo).
      assert (H2 : (year now / 1000 < 10)%N)
        by (apply N.Div0.div_lt_upper_bound; apply N.le_lt_trans with 9999%N; done).
      rewrite N.mod_small in H by exact H2.
      revert H H1. generalize (year now / 1000)%N. intros q H H1. lia. }
    intros i c Hget Hi.
    do 15 (destruct i as [|i];
           [cbn in Hget; first [congruence
                               | injection Hget as <-; rewrite digit_code;
                                 match goal with
                                 | |- context [(?x mod 10)%N] =>
                                     pose proof (N.mod_upper_bound x 10);
                                     set (r := (x mod 10)%N) in *
                                 end; lia]|]).
    cbn in Hget. discriminate.
  - apply highlight_filename_no_sep.
  - apply os_path_join_highlight.
Qed.

(** ** Start-up *)

Section SessionProofs.
Context {Frame : Type}.
Implicit Types (x : session Frame) (cam : backend -> nat -> probe).

Lemma session_eq (a b : session Frame) :
  self a = self b -> terminal a = terminal b -> captures_open a = captures_open b ->
  camera_settings a = camera_settings b -> loops_started a = loops_started b ->
  other_entries a = other_entries b -> a = b.
Proof. destruct a, b; simpl; intros; subst; reflexivity. Qed.

Lemma set_camera_twice (c c' : option capture) (s : state Frame) :
  set_camera c (set_camera c' s) = set_camera c s.
Proof. apply state_eq; reflexivity. Qed.

Lemma set_camera_same (s : state Frame) : set_camera (camera s) s = s.
Proof. apply state_eq; reflexivity. Qed.

Lemma probing_refl x : probing x x.
Proof.
  split; [exists (camera (self x)); by rewrite set_camera_same|].
  split; [done|]. split; [done|]. exists []. by rewrite app_nil_r.
Qed.

Lemma probing_trans x y z : probing x y -> probing y z -> probing x z.
Proof.
  intros ([c Hc] & Hl & Ho & [l Ht]) ([c' Hc'] & Hl' & Ho' & [l' Ht']).
  split; [exists c'; by rewrite Hc', Hc, set_camera_twice|].
  split; [congruence|]. split; [congruence|]. exists (l ++ l').
  by rewrite Ht', Ht, map_app, (assoc_L (++)).
Qed.

Lemma none_found_trans x y z : none_found x y -> none_found y z -> none_found x z.
Proof.
  intros (Hp & _ & Hn) (Hp' & Hc' & Hn').
  split; [by eapply probing_trans|]. split; [done|congruence].
Qed.

Lemma probing_recorder x y : probing x y ->
  RESOLUTION (self y) = RESOLUTION (self x) /\ FPS (self y) = FPS (self x).
Proof. intros ([c ->] & _). by split. Qed.

Lemma none_found_then_found b i x y z :
  none_found x y -> found_at b i y z -> found_at b i x z.
Proof.
  intros (Hp & _ & Hn) (Hp' & Hc' & Hn' & Hs' & [l' Ht']).
  destruct (probing_recorder x y Hp) as [HR HF].
  pose proof Hp as (_ & _ & _ & [l Ht]).
  split; [by eapply probing_trans|]. split; [done|]. split; [congruence|].
  split; [by rewrite Hs', HR, HF|].
  exists (l ++ l'). rewrite Ht', Ht, HR, HF.
  by rewrite !map_app, !(assoc_L (++)).
Qed.

(** One probe: either the camera is found, or the loop goes on with no
    capture left open. *)
Lemma try_camera_spec x cam b i :
  camera (self x) <> Some CaptureOpen ->
  exists x',
    match cam b i with
    | ProbeFrame => try_camera cam b i x = (Ends (Some true), x') /\ found_at b i x x'
    | _ => try_camera cam b i x = (Ends None, x') /\ none_found x x'
    end.
Proof.
  intros Hclosed.
  unfold try_camera, sbind, catch, say, new_capture, throw, ask, camera_release,
    setup_camera_properties, sret.
  destruct (cam b i) eqn:Eprobe; session_simpl.
  - eexists. split; [reflexivity|].
    unfold found_at, probing. session_simpl.
    split; [split; [by eexists|split; [done|split; [done|]]]|].
    + exists [TryingCameraIndex i; CameraFound i b;
              CameraInitialized (fst (RESOLUTION (self x))) (snd (RESOLUTION (self x)))
                                (FPS (self x))].
      cbn [map]. by rewrite <- !(assoc_L (++)).
    + split; [done|]. split; [done|]. split; [done|].
      exists [TryingCameraIndex i]. cbn [map app]. by rewrite <- !(assoc_L (++)).
  - eexists. split; [reflexivity|].
    unfold none_found, probing. session_simpl.
    split; [split; [by eexists|split; [done|split; [done|]]]|].
    + exists [TryingCameraIndex i; CameraNoFrame i].
      cbn [map]. by rewrite <- !(assoc_L (++)).
    + split; [discriminate|done].
  - destruct (camera (self x)) as [[|]|] eqn:Ecam; [done| |];
      session_simpl; rewrite ?Ecam; session_simpl;
      (eexists; split; [reflexivity|]);
      unfold none_found, probing; session_simpl;
      (split; [split; [exists (camera (self x)); by rewrite set_camera_same
                      |split; [done|split; [done|]]]|]);
      try (exists [TryingCameraIndex i; CameraFailed i];
           cbn [map]; by rewrite <- !(assoc_L (++)));
      (split; [by rewrite Ecam|done]).
  - eexists. split; [reflexivity|].
    unfold none_found, probing. session_simpl.
    split; [split; [eexists; by rewrite set_camera_twice|split; [done|split; [done|]]]|].
    + exists [TryingCameraIndex i; CameraFailed i].
      cbn [map]. by rewrite <- !(assoc_L (++)).
    + split; [discriminate|done].
Qed.

Lemma none_found_refl x : camera (self x) <> Some CaptureOpen -> none_found x x.
Proof. intros H. split; [apply probing_refl|by split]. Qed.

Lemma say_none_found (n : notice) x :
  camera (self x) <> Some CaptureOpen -> none_found x (sexec (say n) x).
Proof.
  intros H. unfold sexec, say. session_simpl.
  split; [|by split]. split; [exists (camera (self x)); by rewrite set_camera_same|].
  split; [done|]. split; [done|]. by exists [n].
Qed.

Lemma find_app_or {A} (f : A -> bool) (l1 l2 : list A) :
  List.find f (l1 ++ l2) =
  match List.find f l1 with Some a => Some a | None => List.find f l2 end.
Proof. induction l1 as [|a l1 IH]; cbn; [done|]. by destruct (f a). Qed.

Lemma find_map_pair {A B} (f : A * B -> bool) (a : A) (l : list B) :
  List.find f (map (pair a) l) =
  option_map (pair a) (List.find (fun i => f (a, i)) l).
Proof. induction l as [|i l IH]; cbn; [done|]. by destruct (f (a, i)). Qed.

(** The inner loop, over any indices. *)
Lemma try_indices_spec cam b (indices : list nat) : forall x,
  camera (self x) <> Some CaptureOpen ->
  exists x',
    match List.find (fun i => match cam b i with ProbeFrame => true | _ => false end)
                    indices with
    | Some i => try_indices cam b indices x = (Ends (Some true), x') /\ found_at b i x x'
    | None => try_indices cam b indices x = (Ends None, x') /\ none_found x x'
    end.
Proof.
  induction indices as [|i rest IH]; intros x Hclosed.
  - exists x. split; [reflexivity|by apply none_found_refl].
  - destruct (try_camera_spec x cam b i Hclosed) as [x1 Hprobe].
    cbn [List.find].
    destruct (cam b i) eqn:Eprobe; cbv beta iota.
    { exists x1. destruct Hprobe as [Hrun Hfound]. split; [|exact Hfound].
      cbn [try_indices]. unfold sbind. by rewrite Hrun. }
    all: destruct Hprobe as [Hrun Hnone];
      assert (Hstep : try_indices cam b (i :: rest) x = try_indices cam b rest x1)
        by (cbn [try_indices]; unfold sbind at 1; by rewrite Hrun);
      rewrite Hstep;
      destruct (IH x1 (proj1 (proj2 Hnone))) as [x2 Hrest]; exists x2;
      destruct (List.find _ rest); destruct Hrest as [-> H2]; (split; [reflexivity|]);
        [by eapply none_found_then_found | by eapply none_found_trans].
Qed.

(** The outer loop, over any backends. *)
Lemma try_backends_spec cam (backends : list backend) : forall x,
  camera (self x) <> Some CaptureOpen ->
  exists x',
    match List.find (fun p => match cam (fst p) (snd p) with
                              | ProbeFrame => true | _ => false end)
                    (flat_map (fun b => map (pair b) (seq 0 3)) backends) with
    | Some (b, i) => try_backends cam backends x = (Ends (Some true), x') /\
                     found_at b i x x'
    | None => try_backends cam backends x = (Ends None, x') /\ none_found x x'
    end.
Proof.
  induction backends as [|b rest IH]; intros x Hclosed.
  - exists x. split; [reflexivity|by apply none_found_refl].
  - cbn [flat_map]. rewrite find_app_or, find_map_pair. cbn [fst snd].
    pose proof (say_none_found (TryingBackend b) x Hclosed) as Hsay.
    unfold sexec in Hsay.
    destruct (say (TryingBackend b) x) as [o x0] eqn:Esay.
    assert (Ho : o = Ends tt) by (unfold say in Esay; congruence). subst o.
    cbn [snd] in Hsay.
    destruct (try_indices_spec cam b (seq 0 3) x0 (proj1 (proj2 Hsay))) as [x1 Hin].
    destruct (List.find _ (seq 0 3)) as [i|]; cbn [option_map].
    + destruct Hin as [Hrun Hfound]. exists x1. split.
      * cbn [try_backends]. unfold sbind. by rewrite Esay, Hrun.
      * by eapply none_found_then_found.
    + destruct Hin as [Hrun Hnone].
      assert (Hstep : try_backends cam (b :: rest) x = try_backends cam rest x1)
        by (cbn [try_backends]; unfold sbind at 1 2; by rewrite Esay, Hrun).
      rewrite Hstep.
      assert (Hx1 : none_found x x1) by by eapply none_found_trans.
      destruct (IH x1 (proj1 (proj2 Hnone))) as [x2 Hrest]. exists x2.
      destruct (List.find _ (flat_map _ rest)) as [[b' i']|];
        destruct Hrest as [-> H2]; (split; [reflexivity|]);
        [by eapply none_found_then_found | by eapply none_found_trans].
Qed.

(** [initialize_camera] as a whole. *)
Lemma initialize_camera_spec x cam :
  camera (self x) <> Some CaptureOpen ->
  exists x',
    match first_camera cam with
    | Some (b, i) => initialize_camera cam x = (Ends true, x') /\ found_at b i x x'
    | None =>
        initialize_camera cam x = (Ends false, x') /\ none_found x x' /\
        exists lines, terminal x' = terminal x ++ map inr (lines ++ [NoWorkingCamera])
    end.
Proof.
  intros Hclosed.
  pose proof (say_none_found InitializingCamera x Hclosed) as Hsay.
  unfold sexec in Hsay.
  destruct (say InitializingCamera x) as [o x0] eqn:Esay.
  assert (Ho : o = Ends tt) by (unfold say in Esay; congruence). subst o.
  cbn [snd] in Hsay.
  destruct (try_backends_spec cam [CAP_V4L2; CAP_ANY] x0 (proj1 (proj2 Hsay)))
    as [x1 Hspec].
  change (flat_map _ [CAP_V4L2; CAP_ANY]) with probe_order in Hspec.
  unfold first_camera, initialize_camera, sbind. rewrite Esay.
  destruct (List.find _ probe_order) as [[b i]|]; destruct Hspec as [-> Hx1].
  - exists x1. split; [reflexivity|]. by eapply none_found_then_found.
  - pose proof (none_found_trans x x0 x1 Hsay Hx1) as (Hp & Hc & Hn).
    eexists. unfold say, sret. split; [reflexivity|].
    destruct Hp as (Hself & Hloops & Hoth & [lines Ht]).
    split.
    + split; [|by split]. session_simpl.
      split; [exact Hself|split; [exact Hloops|split; [exact Hoth|]]].
      exists (lines ++ [NoWorkingCamera]). by rewrite Ht, map_app, (assoc_L (++)).
    + session_simpl. exists lines. by rewrite Ht, map_app, (assoc_L (++)).
Qed.

(** X10.  [initialize_camera] on a recorder whose camera is not open.  It
    probes the backends V4L2 and ANY, indices 0, 1, 2 of each, in that order,
    and returns [True] exactly when one of the six probes reads a frame.  It
    then stops at the first such probe: the capture of that probe is open
    and is the only one added, its width, height and frame rate are set from
    [RESOLUTION] and [FPS], and the last two lines printed name the index
    and backend found and the properties.  Otherwise it returns [False]
    after "No working camera found!" with no capture left open: every
    capture it made was released.  In both cases it never raises, whatever
    the probes raise, starts no thread, and changes nothing of the recorder
    but [self.camera]. *)
Theorem X10_initialize_camera x cam :
  camera (self x) <> Some CaptureOpen ->
  let x' := sexec (initialize_camera cam) x in
  (exists c, self x' = set_camera c (self x)) /\
  loops_started x' = loops_started x /\
  match first_camera cam with
  | Some (b, i) =>
      sresult (initialize_camera cam) x = Ends true /\
      camera (self x') = Some CaptureOpen /\
      captures_open x' = S (captures_open x) /\
      camera_settings x' =
        Some (fst (RESOLUTION (self x)), snd (RESOLUTION (self x)), FPS (self x)) /\
      exists lines,
        terminal x' =
        terminal x ++
        map inr (lines ++ [CameraFound i b;
                           CameraInitialized (fst (RESOLUTION (self x)))
                                             (snd (RESOLUTION (self x)))
                                             (FPS (self x))])
  | None =>
      sresult (initialize_camera cam) x = Ends false /\
      camera (self x') <> Some CaptureOpen /\
      captures_open x' = captures_open x /\
      exists lines, terminal x' = terminal x ++ map inr (lines ++ [NoWorkingCamera])
  end.
Proof.
  intros Hclosed x'. subst x'. unfold sexec, sresult.
  destruct (initialize_camera_spec x cam Hclosed) as [x1 Hspec].
  destruct (first_camera cam) as [[b i]|].
  - destruct Hspec as [-> ((Hself & Hloops & _) & Hc & Hn & Hs & Ht)]. cbn [fst snd].
    split; [exact Hself|]. split; [exact Hloops|]. split; [reflexivity|].
    split; [exact Hc|]. split; [exact Hn|]. split; [exact Hs | exact Ht].
  - destruct Hspec as [-> (((Hself & Hloops & _) & Hc & Hn) & Ht)]. cbn [fst snd].
    split; [exact Hself|]. split; [exact Hloops|]. split; [reflexivity|].
    split; [exact Hc|]. split; [exact Hn | exact Ht].
Qed.

Lemma released_same (c : option capture) : released c c = false.
Proof. by destruct c as [[|]|]. Qed.

(** A method that prints nothing and leaves the camera alone is run in a
    session as on the recorder. *)
Lemma lift_quiet {A} (m : M Frame A) x :
  stdout (snd (m (self x))) = stdout (self x) ->
  camera (snd (m (self x))) = camera (self x) ->
  sexec (lift m) x =
  mkSession (snd (m (self x))) (terminal x) (captures_open x) (camera_settings x)
            (loops_started x) (other_entries x).
Proof.
  intros Hout Hcam. unfold sexec, lift. cbn [snd].
  apply session_eq; session_simpl; try reflexivity.
  - by rewrite Hout, drop_all, app_nil_r.
  - by rewrite Hcam, released_same.
Qed.

(** What [start_recording] does. *)
Lemma start_recording_spec x cam :
  camera (self x) <> Some CaptureOpen ->
  let x' := sexec (start_recording cam) x in
  frame_buffer (self x') = frame_buffer (self x) /\
  max_buffer_size (self x') = max_buffer_size (self x) /\
  files (self x') = files (self x) /\
  match first_camera cam with
  | Some _ =>
      sresult (start_recording cam) x = Ends true /\
      recording (self x') = true /\
      loops_started x' = S (loops_started x) /\
      camera (self x') = Some CaptureOpen /\
      captures_open x' = S (captures_open x) /\
      exists lines, terminal x' = terminal x ++ map inr (lines ++ [RecordingStarted])
  | None =>
      sresult (start_recording cam) x = Ends false /\
      recording (self x') = recording (self x) /\
      loops_started x' = loops_started x /\
      camera (self x') <> Some CaptureOpen /\
      captures_open x' = captures_open x
  end.
Proof.
  intros Hclosed x'. subst x'.
  destruct (initialize_camera_spec x cam Hclosed) as [x1 Hspec].
  destruct (first_camera cam) as [[b i]|].
  - destruct Hspec as [Hinit (([c Hself] & Hloops & _) & Hc & Hn & Hs & [lines Ht])].
    assert (Hrun : start_recording cam x =
                   (Ends true,
                    mkSession (set_recording true (self x1))
                              (terminal x1 ++ [inr RecordingStarted])
                              (captures_open x1) (camera_settings x1)
                              (S (loops_started x1)) (other_entries x1))).
    { unfold start_recording, sbind. rewrite Hinit. cbn [negb].
      unfold lift, modify, say, sret. session_simpl.
      by rewrite drop_all, app_nil_r, released_same. }
    unfold sexec, sresult. rewrite Hrun. session_simpl. rewrite Hself. session_simpl.
    do 3 (split; [reflexivity|]). split; [reflexivity|]. split; [reflexivity|].
    split; [by rewrite Hloops|]. split; [by rewrite Hself in Hc|]. split; [exact Hn|].
    exists (lines ++ [CameraFound i b;
                      CameraInitialized (fst (RESOLUTION (self x)))
                                        (snd (RESOLUTION (self x))) (FPS (self x))]).
    rewrite Ht, (map_app _ (lines ++ _) [RecordingStarted]), <- (assoc_L (++)).
    reflexivity.
  - destruct Hspec as [Hinit ((([c Hself] & Hloops & _) & Hc & Hn) & _)].
    assert (Hrun : start_recording cam x = (Ends false, x1)).
    { unfold start_recording, sbind. by rewrite Hinit. }
    unfold sexec, sresult. rewrite Hrun. session_simpl. rewrite Hself. session_simpl.
    do 3 (split; [reflexivity|]). split; [reflexivity|]. split; [reflexivity|].
    split; [exact Hloops|]. split; [by rewrite Hself in Hc | exact Hn].
Qed.

(** X11.  [start_recording] on a recorder whose camera is not open.  When a
    probe reads a frame it returns [True]: [self.recording] is set, one
    recording thread is started, the capture found is open and the last
    line printed is "Recording started!".  When none does it returns
    [False]: the flag is as before, no thread is started and no capture is
    left open.  Either way the buffer, the limit and the files are as
    before. *)
Theorem X11_start_recording x cam :
  camera (self x) <> Some CaptureOpen ->
  let x' := sexec (start_recording cam) x in
  frame_buffer (self x') = frame_buffer (self x) /\
  max_buffer_size (self x') = max_buffer_size (self x) /\
  files (self x') = files (self x) /\
  match first_camera cam with
  | Some _ =>
      sresult (start_recording cam) x = Ends true /\
      recording (self x') = true /\
      loops_started x' = S (loops_started x) /\
      camera (self x') = Some CaptureOpen /\
      captures_open x' = S (captures_open x) /\
      exists lines, terminal x' = terminal x ++ map inr (lines ++ [RecordingStarted])
  | None =>
      sresult (start_recording cam) x = Ends false /\
      recording (self x') = recording (self x) /\
      loops_started x' = loops_started x /\
      camera (self x') <> Some CaptureOpen /\
      captures_open x' = captures_open x
  end.
Proof. exact (start_recording_spec x cam). Qed.

(** The two ways [start_recording] goes. *)
Lemma start_recording_cases x cam :
  camera (self x) <> Some CaptureOpen ->
  exists x1,
    match first_camera cam with
    | Some (b, i) =>
        found_at b i x x1 /\
        start_recording cam x =
          (Ends true,
           mkSession (set_recording true (self x1))
                     (terminal x1 ++ [inr RecordingStarted])
                     (captures_open x1) (camera_settings x1)
                     (S (loops_started x1)) (other_entries x1))
    | None => none_found x x1 /\ start_recording cam x = (Ends false, x1)
    end.
Proof.
  intros Hclosed.
  destruct (initialize_camera_spec x cam Hclosed) as [x1 Hspec]. exists x1.
  destruct (first_camera cam) as [[b i]|].
  - destruct Hspec as [Hinit Hfound]. split; [exact Hfound|].
    unfold start_recording, sbind. rewrite Hinit. cbn [negb].
    unfold lift, modify, say, sret. session_simpl.
    by rewrite drop_all, app_nil_r, released_same.
  - destruct Hspec as [Hinit [Hnone _]]. split; [exact Hnone|].
    unfold start_recording, sbind. by rewrite Hinit.
Qed.

(** The recorder that a successful [start_recording] leaves. *)
Lemma start_recording_found x cam :
  camera (self x) <> Some CaptureOpen -> first_camera cam <> None ->
  sresult (start_recording cam) x = Ends true /\
  self (sexec (start_recording cam) x) = started (self x) /\
  captures_open (sexec (start_recording cam) x) = S (captures_open x) /\
  other_entries (sexec (start_recording cam) x) = other_entries x.
Proof.
  intros Hclosed Hsome.
  destruct (start_recording_cases x cam Hclosed) as [x1 Hspec].
  destruct (first_camera cam) as [[b i]|]; [|done].
  destruct Hspec as [(([c Hself] & _ & Hoth & _) & Hc & Hn & _) Hrun].
  unfold sexec, sresult. rewrite Hrun. session_simpl.
  split; [reflexivity|]. split; [|split; [exact Hn | exact Hoth]].
  rewrite Hself in Hc |- *. cbn [camera set_camera] in Hc. by rewrite Hc.
Qed.

(** A recording thread run in a session to the end of its inputs, however it
    ends: the session goes on, with the buffer, the output and the sleeps
    of the loop. *)
Lemma recording_thread_run x (inputs : list (@capture_input Frame)) :
  exists b added naps,
    lift (thread_start (recording_loop inputs)) x =
    (Ends tt,
     mkSession
       (set_slept (slept (self x) ++ naps)
          (set_stdout (stdout (self x) ++ added) (set_frame_buffer b (self x))))
       (terminal x ++ map inl added) (captures_open x) (camera_settings x)
       (loops_started x) (other_entries x)).
Proof.
  destruct (run_loop_agree inputs (self x) (self x) 0 eq_refl eq_refl eq_refl eq_refl)
    as (r & b & added & naps & Hrun & _).
  exists b, added, naps.
  unfold lift, thread_start, exec, recording_loop. rewrite Hrun. cbn [fst snd].
  f_equal. apply session_eq; session_simpl; try reflexivity.
  - by rewrite drop_app_length.
  - by rewrite released_same.
Qed.

(** X12.  Stopping after starting gives the camera back.  Start the
    recorder; when a camera was found, let the recording thread run over any
    inputs, however it ends; then stop.  After [stop_recording] no capture
    that [start_recording] made is left open, the flag is clear and the GPIO
    is cleaned up; the stop does not raise, even when no camera was found;
    the buffer is the one the recording thread left, which is the one before
    the start when no camera was found; and a loop that tests the flag from
    then on returns at once. *)
Theorem X12_start_then_stop x cam (inputs : list (@capture_input Frame)) :
  camera (self x) <> Some CaptureOpen ->
  let started := sexec (start_recording cam) x in
  let captured :=
    match first_camera cam with
    | Some _ => sexec (lift (thread_start (recording_loop inputs))) started
    | None => started
    end in
  let stopped := sexec (lift stop_recording) captured in
  sresult (lift stop_recording) captured = Ends tt /\
  captures_open stopped = captures_open x /\
  camera (self stopped) <> Some CaptureOpen /\
  recording (self stopped) = false /\
  gpio (self stopped) = GpioCleanedUp /\
  frame_buffer (self stopped) = frame_buffer (self captured) /\
  (first_camera cam = None -> frame_buffer (self stopped) = frame_buffer (self x)) /\
  (forall more fc,
     run_loop more fc (self stopped) = (Returns LoopExited, self stopped)).
Proof.
  intros Hclosed started captured stopped.
  pose proof (start_recording_spec x cam Hclosed) as Hspec.
  fold started in Hspec. destruct Hspec as (Hbuf & _ & _ & Hcases).
  assert (Hstop : sresult (lift stop_recording) captured = Ends tt /\
                  self stopped =
                    set_stdout (stdout (self captured) ++
                                [StoppingRecording; RecordingStopped])
                      (set_gpio GpioCleanedUp
                         (set_camera (match camera (self captured) with
                                      | Some _ => Some CaptureReleased
                                      | None => None
                                      end)
                            (set_recording false (self captured)))) /\
                  captures_open stopped =
                    if released (camera (self captured))
                                (match camera (self captured) with
                                 | Some _ => Some CaptureReleased
                                 | None => None
                                 end)
                    then pred (captures_open captured) else captures_open captured).
  { subst stopped. unfold sexec, sresult, lift. rewrite stop_recording_exact.
    session_simpl. by repeat split. }
  destruct Hstop as (Hres & Hself & Hcount).
  assert (Hexit : forall more fc,
            run_loop more fc (self stopped) = (Returns LoopExited, self stopped)).
  { intros more fc. destruct more; cbn [run_loop]; by rewrite Hself. }
  enough (Hmain : captures_open stopped = captures_open x /\
                  camera (self stopped) <> Some CaptureOpen /\
                  recording (self stopped) = false /\
                  gpio (self stopped) = GpioCleanedUp /\
                  frame_buffer (self stopped) = frame_buffer (self captured) /\
                  (first_camera cam = None ->
                   frame_buffer (self stopped) = frame_buffer (self x))).
  { destruct Hmain as (H2 & H3 & H4 & H5 & H6 & H7).
    exact (conj Hres (conj H2 (conj H3 (conj H4 (conj H5 (conj H6 (conj H7 Hexit))))))). }
  clear Hexit. rewrite Hself, Hcount. session_simpl.
  assert (Hcaptured : camera (self captured) = camera (self started) /\
                      captures_open captured = captures_open started /\
                      (first_camera cam = None -> captured = started)).
  { subst captured. destruct (first_camera cam); [|done].
    destruct (recording_thread_run started inputs) as (b & added & naps & Hrun).
    unfold sexec. rewrite Hrun. session_simpl. by repeat split. }
  destruct Hcaptured as (Hcam & Hopen & Hsame). rewrite Hcam, Hopen.
  destruct (first_camera cam).
  - destruct Hcases as (_ & _ & _ & Hc & Hn & _). rewrite Hc, Hn. cbn [released pred].
    split; [reflexivity|]. split; [discriminate|]. do 3 (split; [reflexivity|]).
    done.
  - destruct Hcases as (_ & _ & _ & Hc & Hn).
    destruct (camera (self started)) as [[|]|]; [done|..]; cbn [released];
      (split; [exact Hn|]); (split; [discriminate|]); do 3 (split; [reflexivity|]);
      intros _; by rewrite Hsame, Hbuf.
Qed.

End SessionProofs.

(** ** Status *)

Section StatsProofs.
Context {Frame : Type}.
Implicit Types (x : session Frame) (s : state Frame).

(** A method that returns without changing the recorder leaves the session
    as it is. *)
Lemma lift_pure {A} (m : M Frame A) x (v : A) :
  m (self x) = (Returns v, self x) -> lift m x = (Ends v, x).
Proof.
  intros H. unfold lift. rewrite H. cbn [fst snd]. f_equal.
  apply session_eq; session_simpl; try reflexivity.
  - by rewrite drop_all, app_nil_r.
  - by rewrite released_same.
Qed.

Lemma lift_raise {A} (m : M Frame A) x (e : exn) :
  m (self x) = (Raises e, self x) -> lift m x = (Throws (Recorder e), x).
Proof.
  intros H. unfold lift. rewrite H. cbn [fst snd]. f_equal.
  apply session_eq; session_simpl; try reflexivity.
  - by rewrite drop_all, app_nil_r.
  - by rewrite released_same.
Qed.

(** [get_stats] with a positive frame rate: three lines, then the listing of
    the highlights directory, which either raises or gives the count of the
    fourth line. *)
Lemma get_stats_run x :
  0 < FPS (self x) ->
  get_stats x =
  let head :=
    [StatsHeader;
     StatsBuffer (length (frame_buffer (self x)))
       (inject_Z (Z.of_nat (length (frame_buffer (self x)))) /
        inject_Z (Z.of_nat (FPS (self x))))%Q;
     StatsRecording (recording (self x))] in
  match listing (HIGHLIGHTS_DIR (self x)) x with
  | Some names =>
      (Ends tt,
       mkSession (self x)
         (terminal x ++ map inr (head ++ [StatsHighlights (size names)]))
         (captures_open x) (camera_settings x) (loops_started x) (other_entries x))
  | None =>
      (Throws (Recorder OSError),
       mkSession (self x) (terminal x ++ map inr head)
         (captures_open x) (camera_settings x) (loops_started x) (other_entries x))
  end.
Proof.
  intros Hfps.
  assert (Hdiv : (FPS (self x) =? 0) = false) by (apply Nat.eqb_neq; lia).
  unfold get_stats. unfold sbind at 1.
  rewrite (lift_pure len_frame_buffer x (length (frame_buffer (self x)))) by done.
  unfold sbind at 1, ask at 1. unfold sbind at 1.
  rewrite (lift_pure (py_truediv _ _) x
             (inject_Z (Z.of_nat (length (frame_buffer (self x)))) /
              inject_Z (Z.of_nat (FPS (self x))))%Q)
    by (unfold py_truediv; by rewrite Hdiv).
  unfold sbind at 1, say at 1. unfold sbind at 1.
  set (x1 := mkSession _ _ _ _ _ _).
  rewrite (lift_pure len_frame_buffer x1 (length (frame_buffer (self x)))) by done.
  unfold sbind, say, ask, os_listdir, listing, sret, x1. session_simpl.
  destruct (String.eqb (HIGHLIGHTS_DIR (self x)) EmptyString);
    [|destruct (other_entries x) as [others|]]; cbn [option_map];
    f_equal; apply session_eq; session_simpl; try reflexivity;
    cbn [map app]; by rewrite <- !(assoc_L (++)).
Qed.

(** X13.  [get_stats] changes nothing of the recorder.  With a positive
    frame rate it prints the header, the number of buffered frames with the
    seconds they span, which is frames / FPS, and whether the recorder
    records; when the limit is [BUFFER_SECONDS * FPS] and the buffer is
    within it, the seconds shown never exceed [BUFFER_SECONDS].  It then
    lists the highlights directory: when that exists (and its path is not
    empty) it prints as fourth line the number of entries of the directory,
    counting each file directly in it, each subdirectory and whatever else
    it holds once, and returns; when it does not exist the listing raises
    [OSError] out of [get_stats], after the three lines.  With a frame rate
    of zero [get_stats] raises [ZeroDivisionError] before printing
    anything. *)
Theorem X13_get_stats x :
  let n := length (frame_buffer (self x)) in
  let x' := sexec get_stats x in
  (0 < FPS (self x) ->
   self x' = self x /\
   captures_open x' = captures_open x /\
   exists seconds,
     (seconds * inject_Z (Z.of_nat (FPS (self x))) == inject_Z (Z.of_nat n))%Q /\
     (max_buffer_size (self x) = BUFFER_SECONDS (self x) * FPS (self x) ->
      n <= max_buffer_size (self x) ->
      (seconds <= inject_Z (Z.of_nat (BUFFER_SECONDS (self x))))%Q) /\
     let head := [StatsHeader; StatsBuffer n seconds;
                  StatsRecording (recording (self x))] in
     match listing (HIGHLIGHTS_DIR (self x)) x with
     | Some names =>
         sresult get_stats x = Ends tt /\
         terminal x' = terminal x ++ map inr (head ++ [StatsHighlights (size names)])
     | None =>
         sresult get_stats x = Throws (Recorder OSError) /\
         terminal x' = terminal x ++ map inr head
     end) /\
  (FPS (self x) = 0 -> get_stats x = (Throws (Recorder ZeroDivisionError), x)).
Proof.
  intros n x'. subst n x'. split.
  - intros Hfps.
    pose proof (get_stats_run x Hfps) as Hrun. cbv zeta in Hrun.
    unfold sresult, sexec. rewrite Hrun.
    assert (Hsec : forall a b : nat, 0 < b ->
              ((inject_Z (Z.of_nat a) / inject_Z (Z.of_nat b)) * inject_Z (Z.of_nat b)
               == inject_Z (Z.of_nat a))%Q).
    { intros a b Hb. field. unfold Qeq. simpl. lia. }
    assert (Hle : max_buffer_size (self x) = BUFFER_SECONDS (self x) * FPS (self x) ->
                  length (frame_buffer (self x)) <= max_buffer_size (self x) ->
                  (inject_Z (Z.of_nat (length (frame_buffer (self x)))) /
                   inject_Z (Z.of_nat (FPS (self x)))
                   <= inject_Z (Z.of_nat (BUFFER_SECONDS (self x))))%Q).
    { intros Hcap Hlen. apply Qle_shift_div_r.
      * unfold Qlt. simpl. lia.
      * rewrite <- inject_Z_mult, <- Zle_Qle. lia. }
    destruct (listing _ x) as [names|]; session_simpl;
      (split; [reflexivity|]); (split; [reflexivity|]);
      eexists; (split; [by apply Hsec|]); (split; [exact Hle|]); by split.
  - intros Hzero. unfold get_stats. unfold sbind at 1.
    rewrite (lift_pure len_frame_buffer x (length (frame_buffer (self x)))) by done.
    unfold sbind at 1, ask at 1. unfold sbind at 1.
    rewrite (lift_raise (py_truediv _ _) x ZeroDivisionError); [reflexivity|].
    unfold py_truediv. by rewrite Hzero.
Qed.

Lemma strip_prefix_app (p a : string) : strip_prefix p (p +:+ a) = Some a.
Proof.
  induction p as [|c p IH]; [reflexivity|].
  change (strip_prefix (String c p) (String c (p +:+ a)) = Some a).
  cbn [strip_prefix]. by rewrite Ascii.eqb_refl.
Qed.

Lemma first_component_no_sep (a : string) : has_sep a = false -> first_component a = a.
Proof.
  induction a as [|c a IH]; cbn [has_sep first_component]; [done|].
  destruct (Ascii.eqb c "/"); [done|]. intros H. by rewrite IH.
Qed.

(** The path of a highlight shows in the highlights directory under the
    highlight's name. *)
Lemma entry_name_highlight (dir : string) (now : datetime) :
  dir <> EmptyString ->
  entry_name dir (os_path_join dir (highlight_filename now)) = Some (highlight_filename now).
Proof.
  intros Hdir. rewrite os_path_join_highlight. unfold entry_name.
  replace (String.eqb dir EmptyString) with false by (symmetry; by apply String.eqb_neq).
  cbn [orb]. rewrite strip_prefix_app. cbv zeta.
  rewrite first_component_no_sep by apply highlight_filename_no_sep.
  reflexivity.
Qed.

(** The entries of the highlights directory after a file is put at the path
    of a highlight. *)
Lemma directory_entries_insert (dir : string) (fs : gmap string (list Frame))
    (others : list string) (now : datetime) (content : list Frame) :
  dir <> EmptyString ->
  let name := highlight_filename now in
  let before := directory_entries dir fs others in
  let after := directory_entries dir (<[os_path_join dir name := content]> fs) others in
  after = {[name]} ∪ before /\
  size after = (if decide (name ∈ before) then size before else S (size before)) /\
  (is_Some (fs !! os_path_join dir name) -> name ∈ before).
Proof.
  intros Hdir name before after.
  pose proof (entry_name_highlight dir now Hdir) as Hname. fold name in Hname.
  assert (Hafter : after = {[name]} ∪ before).
  { unfold after, before, directory_entries.
    rewrite dom_insert_L, set_omap_union_L, set_omap_singleton_L, Hname.
    by rewrite (assoc_L (∪)). }
  split; [exact Hafter|]. split.
  - rewrite Hafter. destruct (decide (name ∈ before)) as [Hin|Hout].
    + by rewrite (subseteq_union_1_L {[name]} before)
        by (by apply singleton_subseteq_l).
    + rewrite size_union by (by apply disjoint_singleton_l).
      by rewrite size_singleton.
  - intros Hsome. unfold before, directory_entries.
    apply elem_of_union_l, (elem_of_set_omap_2 _ _ (os_path_join dir name)); [|exact Hname].
    by apply elem_of_dom.
Qed.

(** X14.  The count of highlights that [get_stats] shows follows the
    directory, not the exports.  After an export whose writer opens, the
    entries of the highlights directory are those before together with the
    highlight's name; their number, which [get_stats] then prints in its
    last line, is one more than before when the directory had no entry of
    that name and the same as before when it had one, as it has when a file
    is at the export's path already, for a second export within the same
    second. *)
Theorem X14_highlights_count s (now : datetime) (w : @video_writer Frame)
    (others : list string) :
  frame_buffer s <> [] -> opens w = true -> HIGHLIGHTS_DIR s <> EmptyString ->
  0 < FPS s ->
  let s' := exec (save_highlight now w) s in
  let entries (t : state Frame) := directory_entries (HIGHLIGHTS_DIR t) (files t) others in
  let name := highlight_filename now in
  entries s' = {[name]} ∪ entries s /\
  size (entries s') =
    (if decide (name ∈ entries s) then size (entries s) else S (size (entries s))) /\
  (is_Some (files s !! highlight_path s now) -> name ∈ entries s) /\
  last (terminal (sexec get_stats (in_directory (Some others) (session_of s'))))
    = Some (inr (StatsHighlights (size (entries s')))).
Proof.
  intros Hne Hop Hdir Hfps s' entries name.
  assert (Hfiles : files s' =
                   <[highlight_path s now := stored_frames w 0 (frame_buffer s)]> (files s)).
  { unfold s', exec. rewrite save_highlight_opened by done.
    by destruct (write_raises _ _ _); [|destruct (FPS s =? 0)]. }
  destruct (save_highlight_touches s now w) as (out & fs & calls & Hs').
  fold s' in Hs'.
  assert (Hd' : HIGHLIGHTS_DIR s' = HIGHLIGHTS_DIR s) by by rewrite Hs'.
  assert (Hf' : FPS s' = FPS s) by by rewrite Hs'.
  destruct (directory_entries_insert (HIGHLIGHTS_DIR s) (files s) others now
              (stored_frames w 0 (frame_buffer s)) Hdir) as (Hafter & Hsize & Hsome).
  assert (Hentries : entries s' =
            directory_entries (HIGHLIGHTS_DIR s)
              (<[os_path_join (HIGHLIGHTS_DIR s) (highlight_filename now) :=
                   stored_frames w 0 (frame_buffer s)]> (files s)) others).
  { unfold entries. by rewrite Hd', Hfiles. }
  rewrite Hentries.
  split; [exact Hafter|]. split; [exact Hsize|]. split; [exact Hsome|].
  unfold sexec. rewrite get_stats_run by (cbn [in_directory session_of self]; lia).
  cbv zeta. unfold listing. cbn [in_directory session_of self other_entries option_map].
  replace (String.eqb (HIGHLIGHTS_DIR s') EmptyString) with false
    by (symmetry; apply String.eqb_neq; congruence).
  cbn [snd terminal]. rewrite Hd', Hfiles.
  rewrite map_app. cbn [map]. rewrite (assoc_L (++)). by rewrite last_snoc.
Qed.

End StatsProofs.

(** ** From start to status *)

Section EndToEnd.
Context {Frame : Type}.
Implicit Types (x : session Frame) (s : state Frame).

(** X15.  A whole session.  Build the recorder on a highlights directory
    that holds any files and other entries, start it on a machine where some
    probe reads a frame, let the loop read any frames, press the button with
    a writer that opens and stores every frame, and ask for the status.
    Every step returns normally; the buffer holds the last
    [max_buffer_size] frames read; the files are those the directory held
    before the run, with at the highlight's path a file of those frames in
    order, in place of any file that was there; the status shows as many
    highlights as the directory has entries, one more than before the run
    when none had the highlight's name and as many as before otherwise; and
    the one capture made is still open. *)
Theorem X15_session_end_to_end (cam : backend -> nat -> probe)
    (entries : list (Frame * timestamp)) (now : datetime) (w : @video_writer Frame)
    (existing : gmap string (list Frame)) (others : list string) :
  first_camera cam <> None -> entries <> [] ->
  opens w = true -> (forall k, write_result_at w k = WriteStored) ->
  let init := init_in existing in
  let x0 := in_directory (Some others) (session_of init) in
  let x1 := sexec (start_recording cam) x0 in
  let x2 := sexec (lift (recording_loop (reads entries))) x1 in
  let x3 := sexec (lift (button_pressed now w)) x2 in
  let x4 := sexec get_stats x3 in
  let kept := drop (length entries - max_buffer_size init) entries in
  let before := directory_entries (HIGHLIGHTS_DIR init) existing others in
  let name := highlight_filename now in
  sresult (start_recording cam) x0 = Ends true /\
  sresult (lift (recording_loop (reads entries))) x1
    = Ends (LoopRunning (length entries)) /\
  sresult (lift (button_pressed now w)) x2 = Ends tt /\
  sresult get_stats x3 = Ends tt /\
  frame_buffer (self x2) = kept /\
  frame_buffer (self x4) = kept /\
  files (self x4) = <[highlight_path init now := map fst kept]> existing /\
  last (terminal x4) =
    Some (inr (StatsHighlights
                 (if decide (name ∈ before) then size before else S (size before)))) /\
  captures_open x4 = 1.
Proof.
  intros Hcam Hne Hop Hall init x0 x1 x2 x3 x4 kept before name.
  assert (Hclosed : camera (self x0) <> Some CaptureOpen) by discriminate.
  destruct (start_recording_found x0 cam Hclosed Hcam) as (Hres1 & Hself1 & Hcap1 & Hoth1).
  fold x1 in Hself1, Hcap1, Hoth1.
  (* the loop *)
  set (s1 := started init) in *.
  assert (Hs1 : self x1 = s1) by exact Hself1.
  destruct (recording_loop_from_empty s1 (reads entries) eq_refl (Nat.lt_0_succ 14) eq_refl)
    as (s2 & Hrun2 & Hbuf2 & Hsame2).
  unfold loop_outcome in Hrun2.
  rewrite read_raises_reads, frames_read_reads in Hrun2. rewrite frames_read_reads in Hbuf2.
  cbn [Nat.add] in Hrun2.
  destruct Hsame2 as (Hcap2 & Hfps2 & Hdir2 & Hrec2 & Hcam2 & Hfiles2 & _).
  assert (Hself2 : self x2 = s2).
  { unfold x2, sexec, lift. cbn [snd self]. by rewrite Hs1, Hrun2. }
  assert (Hres2 : sresult (lift (recording_loop (reads entries))) x1
                  = Ends (LoopRunning (length entries))).
  { unfold sresult, lift. cbn [fst]. by rewrite Hs1, Hrun2. }
  assert (Hopen2 : captures_open x2 = 1).
  { unfold x2, sexec, lift. cbn [snd captures_open]. rewrite Hs1, Hrun2. cbn [snd].
    rewrite Hcam2, released_same. exact Hcap1. }
  assert (Hoth2 : other_entries x2 = Some others) by exact Hoth1.
  assert (Hkept : frame_buffer s2 = kept) by exact Hbuf2.
  assert (Hkne : frame_buffer s2 <> []).
  { rewrite Hkept. unfold kept. intros Hnil.
    apply (f_equal length) in Hnil. rewrite length_drop in Hnil. cbn in Hnil.
    destruct entries; [done|]. cbn [length] in Hnil. lia. }
  (* the press *)
  set (s2p := set_stdout (stdout s2 ++ [ButtonPressed]) s2).
  assert (Hpress : button_pressed now w s2 = (Returns tt, exec (save_highlight now w) s2p)).
  { reflexivity. }
  destruct (stored_frames_all w (frame_buffer s2) Hall 0) as [Hstored Hnoraise].
  assert (Hfps2p : 0 < FPS s2p) by (cbn [FPS s2p set_stdout]; rewrite Hfps2; cbn; lia).
  pose proof (save_highlight_good s2p now w Hkne Hop Hnoraise Hfps2p) as Hsave.
  cbv zeta in Hsave.
  set (s3 := exec (save_highlight now w) s2p).
  assert (Hself3 : self x3 = s3).
  { unfold x3, sexec, lift. cbn [snd self]. by rewrite Hself2, Hpress. }
  assert (Hres3 : sresult (lift (button_pressed now w)) x2 = Ends tt).
  { unfold sresult, lift. cbn [fst]. by rewrite Hself2, Hpress. }
  assert (Hs3 : frame_buffer s3 = kept /\ FPS s3 = FPS s1 /\
                HIGHLIGHTS_DIR s3 = HIGHLIGHTS_DIR s1 /\ camera s3 = camera s2 /\
                files s3 = <[highlight_path init now := map fst kept]> existing).
  { unfold s3, exec. rewrite Hsave. cbn [snd]. state_simpl.
    split; [exact Hkept|]. split; [exact Hfps2|]. split; [exact Hdir2|].
    split; [reflexivity|].
    unfold highlight_path, s2p. state_simpl.
    rewrite Hfiles2, Hstored, Hkept, Hdir2. reflexivity. }
  destruct Hs3 as (Hbuf3 & Hfps3 & Hdir3 & Hcam3 & Hfiles3).
  assert (Hopen3 : captures_open x3 = 1).
  { unfold x3, sexec, lift. cbn [snd captures_open]. rewrite Hself2, Hpress. cbn [snd].
    fold s3. rewrite Hcam3, released_same. exact Hopen2. }
  assert (Hoth3 : other_entries x3 = Some others) by exact Hoth2.
  (* the status *)
  assert (Hd1 : HIGHLIGHTS_DIR s1 <> EmptyString) by discriminate.
  assert (Hlist : listing (HIGHLIGHTS_DIR (self x3)) x3 =
                  Some (directory_entries (HIGHLIGHTS_DIR s1)
                          (<[highlight_path init now := map fst kept]> existing) others)).
  { unfold listing. rewrite Hoth3, Hself3, Hdir3, Hfiles3.
    by replace (String.eqb (HIGHLIGHTS_DIR s1) EmptyString) with false. }
  assert (Hstats : get_stats x3 = _)
    by (apply get_stats_run; rewrite Hself3, Hfps3; cbn; lia).
  cbv zeta in Hstats. rewrite Hlist in Hstats.
  split; [exact Hres1|]. split; [exact Hres2|]. split; [exact Hres3|].
  unfold x4, sresult, sexec. rewrite Hstats. session_simpl. rewrite Hself3.
  split; [reflexivity|]. split; [by rewrite Hself2|]. split; [exact Hbuf3|].
  split; [exact Hfiles3|]. split; [|exact Hopen3].
  rewrite map_app. cbn [map]. rewrite (assoc_L (++)), last_snoc. do 3 f_equal.
  exact (proj1 (proj2 (directory_entries_insert (HIGHLIGHTS_DIR s1) existing others now
                         (map fst kept) Hd1))).
Qed.

End EndToEnd.

(** ** The properties above on concrete runs *)

(** A run that goes on, and one cut short by a read that raises. *)
Lemma X1_witness :
  (let inputs := [ReadFrame 10 0%Q; ReadFailed; ReadFrame 11 1%Q; ReadFrame 12 2%Q] in
   let s' := exec (run_loop inputs 18) Fixtures.tiny in
   result (run_loop inputs 18) Fixtures.tiny = Returns (LoopRunning 21) /\
   slept s' = [(1 # 2)%Q; (1 # 2)%Q; (1 # 2)%Q] /\
   exists added, stdout s' = stdout Fixtures.tiny ++ added /\ length added = 2) /\
  (let inputs := [ReadFrame 10 0%Q; ReadRaises; ReadFrame 11 1%Q] in
   result (run_loop inputs 18) Fixtures.tiny = Raises Cv2Error /\
   slept (exec (run_loop inputs 18) Fixtures.tiny) = [(1 # 2)%Q]).
Proof.
  split.
  - pose proof (X1_loop_accounting Fixtures.tiny
                  [ReadFrame 10 0%Q; ReadFailed; ReadFrame 11 1%Q; ReadFrame 12 2%Q] 18
                  eq_refl (Nat.lt_0_succ 1) (Nat.le_0_l 2))
      as (Hres & Hslept & added & Hout & _ & _ & Hlen & _).
    split; [exact Hres|]. split; [exact Hslept|].
    exists added. split; [exact Hout | exact Hlen].
  - pose proof (X1_loop_accounting Fixtures.tiny
                  [ReadFrame 10 0%Q; ReadRaises; ReadFrame 11 1%Q] 18
                  eq_refl (Nat.lt_0_succ 1) (Nat.le_0_l 2))
      as (Hres & Hslept & _).
    split; [exact Hres | exact Hslept].
Defined.

Lemma X2_witness :
  length (frame_buffer (exec (loop_body (ReadFrame 10 0%Q) 0) Fixtures.tiny)) = 1 /\
  frame_buffer (exec (run_loop [ReadFrame 10 0%Q; ReadFrame 11 1%Q; ReadFrame 12 2%Q] 0)
                     Fixtures.tiny)
    = [(11, 1%Q); (12, 2%Q)].
Proof.
  pose proof (X2_buffer_limit_invariant Fixtures.tiny
                [ReadFrame 10 0%Q; ReadFrame 11 1%Q; ReadFrame 12 2%Q] 0
                eq_refl (Nat.lt_0_succ 1)) as (Hpush & Hrun).
  split; [exact (Hpush 10 0%Q)|].
  destruct (Hrun (Nat.le_0_l 2)) as (_ & _ & Hbuf & _). exact Hbuf.
Defined.

Lemma X5_witness :
  frame_buffer (exec (run_loop [ReadFrame 13 (3 # 15)%Q] 3)
                     (exec (save_highlight Fixtures.press1 Fixtures.w_good)
                           Fixtures.three_frames))
  = frame_buffer (exec (run_loop [ReadFrame 13 (3 # 15)%Q] 3) Fixtures.three_frames).
Proof.
  exact (proj2 (X5_capture_after_export Fixtures.three_frames Fixtures.press1 Fixtures.w_good
                  [ReadFrame 13 (3 # 15)%Q] 3
                  eq_refl (Nat.lt_0_succ 14) (proj1 (Nat.leb_le 3 1800) eq_refl))).
Defined.

Lemma X6_witness :
  let path := highlight_path Fixtures.three_frames Fixtures.press1 in
  writer_calls (exec (save_highlight Fixtures.press1 Fixtures.w_raises_second)
                     Fixtures.three_frames)
  = [WriterOpen path; WriterWrite path; WriterWrite path].
Proof.
  assert (Hne : frame_buffer Fixtures.three_frames <> []) by discriminate.
  exact (proj1 (X6_writer_protocol Fixtures.three_frames Fixtures.press1
                  Fixtures.w_raises_second Hne)).
Defined.

Lemma X7_witness :
  String.length (highlight_filename Fixtures.press1) = 29 /\
  has_sep (highlight_filename Fixtures.press1) = false /\
  highlight_path Fixtures.three_frames Fixtures.press1 =
    "/home/enigma/sports-recorder/highlights/highlight_20261104_120000.avi".
Proof.
  pose proof (X7_highlight_name_shape Fixtures.three_frames Fixtures.press1 eq_refl)
    as (Hlen & _ & Hsep & Hpath).
  split; [exact Hlen|]. split; [exact Hsep | exact Hpath].
Defined.

Lemma X8_witness :
  let s' := exec (save_highlight Fixtures.press1 Fixtures.w_good) Fixtures.three_frames in
  let path := highlight_path Fixtures.three_frames Fixtures.press1 in
  dom (files s') = {[path]} ∪ dom (files Fixtures.three_frames) /\
  size (files s') = 1.
Proof.
  assert (Hne : frame_buffer Fixtures.three_frames <> []) by discriminate.
  pose proof (X8_export_adds_one_file Fixtures.three_frames Fixtures.press1 Fixtures.w_good
                Hne eq_refl) as (Hdom & Hfree & _).
  split; [exact Hdom|].
  exact (Hfree (lookup_empty _)).
Defined.

Lemma X10_witness :
  let x' := sexec (initialize_camera SessionFixtures.second_backend_index1)
                  SessionFixtures.at_start in
  sresult (initialize_camera SessionFixtures.second_backend_index1)
          SessionFixtures.at_start = Ends true /\
  camera (self x') = Some CaptureOpen /\
  captures_open x' = 1 /\
  camera_settings x' = Some (640, 480, 15).
Proof.
  assert (Hclosed : camera (self SessionFixtures.at_start) <> Some CaptureOpen)
    by discriminate.
  pose proof (X10_initialize_camera SessionFixtures.at_start
                SessionFixtures.second_backend_index1 Hclosed)
    as (_ & _ & Hres & Hcam & Hopen & Hset & _).
  split; [exact Hres|]. split; [exact Hcam|]. split; [exact Hopen | exact Hset].
Defined.

Lemma X11_witness :
  (let x' := sexec (start_recording SessionFixtures.second_backend_index1)
                   SessionFixtures.at_start in
   sresult (start_recording SessionFixtures.second_backend_index1)
           SessionFixtures.at_start = Ends true /\
   recording (self x') = true /\ loops_started x' = 1) /\
  (let x' := sexec (start_recording SessionFixtures.no_camera) SessionFixtures.at_start in
   sresult (start_recording SessionFixtures.no_camera) SessionFixtures.at_start
     = Ends false /\
   recording (self x') = false /\ loops_started x' = 0 /\ captures_open x' = 0).
Proof.
  assert (Hclosed : camera (self SessionFixtures.at_start) <> Some CaptureOpen)
    by discriminate.
  split.
  - pose proof (X11_start_recording SessionFixtures.at_start
                  SessionFixtures.second_backend_index1 Hclosed)
      as (_ & _ & _ & Hres & Hrec & Hloops & _).
    split; [exact Hres|]. split; [exact Hrec | exact Hloops].
  - pose proof (X11_start_recording SessionFixtures.at_start
                  SessionFixtures.no_camera Hclosed)
      as (_ & _ & _ & Hres & Hrec & Hloops & _ & Hopen).
    split; [exact Hres|]. split; [exact Hrec|]. split; [exact Hloops | exact Hopen].
Defined.

(** Start, a recording thread that reads one frame and then dies of a
    raising read, stop. *)
Lemma X12_witness :
  let started := sexec (start_recording SessionFixtures.second_backend_index1)
                       SessionFixtures.at_start in
  let captured :=
    sexec (lift (thread_start (recording_loop [ReadFrame 10 0%Q; ReadRaises]))) started in
  let stopped := sexec (lift stop_recording) captured in
  captures_open started = 1 /\
  captures_open stopped = 0 /\
  camera (self stopped) = Some CaptureReleased /\
  recording (self stopped) = false /\
  frame_buffer (self stopped) = [(10, 0%Q)].
Proof.
  assert (Hclosed : camera (self SessionFixtures.at_start) <> Some CaptureOpen)
    by discriminate.
  pose proof (X12_start_then_stop SessionFixtures.at_start
                SessionFixtures.second_backend_index1 [ReadFrame 10 0%Q; ReadRaises] Hclosed)
    as (_ & Hopen & _ & Hrec & _ & Hbuf & _).
  split; [reflexivity|]. split; [exact Hopen|]. split; [reflexivity|].
  split; [exact Hrec | exact Hbuf].
Defined.

(** The status with the directory in place, and with the directory gone. *)
Lemma X13_witness :
  (let x := session_of SessionFixtures.three_of_four in
   self (sexec get_stats x) = self x /\
   exists seconds,
     (seconds * 2 == 3)%Q /\ (seconds <= 2)%Q /\
     sresult get_stats x = Ends tt /\
     terminal (sexec get_stats x) =
       terminal x ++ map inr [StatsHeader; StatsBuffer 3 seconds; StatsRecording true;
                              StatsHighlights 0]) /\
  (let x := in_directory None (session_of SessionFixtures.three_of_four) in
   sresult get_stats x = Throws (Recorder OSError)).
Proof.
  split.
  - destruct (X13_get_stats (session_of SessionFixtures.three_of_four)) as [Hrun _].
    destruct (Hrun (Nat.lt_0_succ 1)) as (Hself & _ & seconds & Hsec & Hbound & Hlist).
    split; [exact Hself|].
    exists seconds. split; [exact Hsec|].
    split; [exact (Hbound eq_refl (proj1 (Nat.leb_le 3 4) eq_refl))|].
    exact Hlist.
  - destruct (X13_get_stats (in_directory None (session_of SessionFixtures.three_of_four)))
      as [Hrun _].
    destruct (Hrun (Nat.lt_0_succ 1)) as (_ & _ & seconds & _ & _ & Hlist).
    exact (proj1 Hlist).
Defined.

(** An export into a directory that holds a subdirectory. *)
Lemma X14_witness :
  let s' := exec (save_highlight Fixtures.press1 Fixtures.w_good) Fixtures.three_frames in
  directory_entries (HIGHLIGHTS_DIR s') (files s') ["clips"]
    = {["highlight_20261104_120000.avi"]}
      ∪ directory_entries (HIGHLIGHTS_DIR Fixtures.three_frames)
          (files Fixtures.three_frames) ["clips"] /\
  last (terminal (sexec get_stats (in_directory (Some ["clips"]) (session_of s'))))
    = Some (inr (StatsHighlights 2)).
Proof.
  assert (Hne : frame_buffer Fixtures.three_frames <> []) by discriminate.
  assert (Hdir : HIGHLIGHTS_DIR Fixtures.three_frames <> EmptyString) by discriminate.
  pose proof (X14_highlights_count Fixtures.three_frames Fixtures.press1 Fixtures.w_good
                ["clips"] Hne eq_refl Hdir (Nat.lt_0_succ 14))
    as (Hafter & Hsize & _ & Hlast).
  split; [exact Hafter|].
  cbv zeta in Hsize, Hlast. rewrite Hsize in Hlast. exact Hlast.
Defined.

(** A second run: the highlight of the first is still in the directory. *)
Lemma X15_witness :
  let x0 := in_directory (Some []) (session_of (init_in SessionFixtures.earlier_run)) in
  let x1 := sexec (start_recording SessionFixtures.second_backend_index1) x0 in
  let x2 := sexec (lift (recording_loop
                           (reads [(10, 0%Q); (11, (1 # 15)%Q); (12, (2 # 15)%Q)]))) x1 in
  let x3 := sexec (lift (button_pressed Fixtures.press1 Fixtures.w_good)) x2 in
  let x4 := sexec get_stats x3 in
  files (self x4) =
    <[ highlight_path (@__init__ nat) Fixtures.press1 := [10; 11; 12] ]>
      SessionFixtures.earlier_run /\
  last (terminal x4) = Some (inr (StatsHighlights 2)) /\
  captures_open x4 = 1.
Proof.
  assert (Hcam : first_camera SessionFixtures.second_backend_index1 <> None)
    by discriminate.
  assert (Hne : [(10, 0%Q); (11, (1 # 15)%Q); (12, (2 # 15)%Q)] <> []) by discriminate.
  pose proof (X15_session_end_to_end SessionFixtures.second_backend_index1
                [(10, 0%Q); (11, (1 # 15)%Q); (12, (2 # 15)%Q)]
                Fixtures.press1 Fixtures.w_good SessionFixtures.earlier_run []
                Hcam Hne eq_refl (fun _ => eq_refl))
    as (_ & _ & _ & _ & _ & _ & Hfiles & Hlast & Hopen).
  split; [exact Hfiles|]. split; [exact Hlast | exact Hopen].
Defined.
